(** * delve_bot: the conversation controller of [src/bot.py]

    A shallow embedding of the two Telegram handlers of [bot.py]
    ([handle_search], [handle_all_callbacks]) and of [generate_image],
    together with the properties of the per-chat session flow.

    Modelling conventions.
    - A Python [str] is a [string]; one [ascii] stands for one character, so
      [s[:n]] is [str_take n s].  The literals of the source that contain
      characters outside ASCII (the emoji of the notices) are written in
      UTF-8; the code never takes the length or a slice of such a literal.
    - [user_sessions] is a [gmap Z session]: chat identifiers are Python
      integers.  A session dictionary always has the keys [results],
      [search_query] and [timestamp] (line 117 is the only place that creates
      one); the key [content] may be absent, hence an [option].
    - Every call that leaves the process (Telegram, Tavily, Gemini, the image
      endpoint) is appended to the [calls] log of the world, and is answered
      by the environment [env] of the event being handled: the environment may
      make any of them raise.
    - [print] statements are console logging and are not modelled.
    - Line 192 of the source ([elif call.data.startswith('platform_'):]) is
      indented as a statement of the body of the [if] of line 175, where an
      [elif] cannot stand: as written the file is not a Python program.  The
      embedding takes no side: [handle_all_callbacks] has a parameter of type
      [line_192] for the two repairs of that one line, and the properties of
      the callbacks are proved for both. *)

From Stdlib Require Import ZArith Ascii String Strings.Byte DecimalString.
From stdpp Require Import base option list gmap strings.

Local Open Scope string_scope.
Local Open Scope Z_scope.

#[local] Set Warnings "-abstract-large-number".

(** ** Python strings *)

Module Str.

Definition nl : string := String "010"%char "".

(** [s[:n]] *)
Fixpoint str_take (n : nat) (s : string) : string :=
  match n, s with
  | S n', String c s' => String c (str_take n' s')
  | _, _ => ""
  end.

(** [str(n)] for a non-negative integer *)
Definition str_of_nat (n : nat) : string :=
  NilZero.string_of_uint (Nat.to_uint n).

(** [sep.join(l)] *)
Definition join (sep : string) (l : list string) : string :=
  String.concat sep l.

(** first occurrence of [sep] in [s]: the text before it and the text
    after it *)
Fixpoint break_at (sep : ascii) (s : string) : option (string * string) :=
  match s with
  | "" => None
  | String c s' =>
      if Ascii.eqb c sep then Some ("", s')
      else match break_at sep s' with
           | Some (a, b) => Some (String c a, b)
           | None => None
           end
  end.

(** [s.split(sep, 1)] for a one-character separator *)
Definition split_once (sep : ascii) (s : string) : list string :=
  match break_at sep s with
  | Some (a, b) => [a; b]
  | None => [s]
  end.

(** [s.split(sep)] for a one-character separator *)
Fixpoint split (sep : ascii) (s : string) : list string :=
  match s with
  | "" => [""]
  | String c s' =>
      if Ascii.eqb c sep then "" :: split sep s'
      else match split sep s' with
           | h :: t => String c h :: t
           | [] => [String c ""]
           end
  end.

(** [c.isspace()] on the characters below 256 *)
Definition isspace (c : ascii) : bool :=
  let n := nat_of_ascii c in
  ((9 <=? n) && (n <=? 13) || (28 <=? n) && (n <=? 32)
   || (n =? 133) || (n =? 160))%nat.

Fixpoint lstrip (s : string) : string :=
  match s with
  | String c s' => if isspace c then lstrip s' else s
  | "" => ""
  end.

Fixpoint rstrip (s : string) : string :=
  match s with
  | "" => ""
  | String c s' =>
      match rstrip s' with
      | "" => if isspace c then "" else String c ""
      | r => String c r
      end
  end.

(** [s.strip()] *)
Definition strip (s : string) : string := rstrip (lstrip s).

(** [s.startswith(p)] *)
Definition startswith (p s : string) : bool := String.prefix p s.

(** [s.split()]: the maximal runs of non-blank characters.  The code never
    calls it; it is the reading of "whitespace-separated segment". *)
Fixpoint segments_go (cur : string) (s : string) : list string :=
  match s with
  | "" => match cur with "" => [] | _ => [cur] end
  | String c s' =>
      if isspace c
      then match cur with "" => segments_go "" s' | _ => cur :: segments_go "" s' end
      else segments_go (cur +:+ String c "") s'
  end.

Definition segments (s : string) : list string := segments_go "" s.

End Str.

Import Str.

(** ** Data *)

(** A record of the search provider: a dictionary read with [.get] (lines
    127, 128, 205) and with [[...]] (line 142), so each key may be absent. *)
Record result := {
  r_title : option string;
  r_url : option string;
  r_content : option string
}.

(** The provider's answer, read with [.get('results', [])]. *)
Record search_response := { sr_results : option (list result) }.

(** The answer of [requests.post]. *)
Record http_response := {
  status_code : Z;
  resp_content : list byte;
  resp_text : string
}.

(** A value of [user_sessions]. *)
Record session := {
  results : list result;
  search_query : string;
  timestamp : string;
  content : option string
}.

Record message := { chat_id : Z; message_id : Z; text : string }.

Record callback_query := { id : string; data : string; cq_message : message }.

Record InlineKeyboardButton := {
  btn_text : string;
  btn_url : option string;
  btn_callback_data : option string
}.

(** An [InlineKeyboardMarkup]: its rows of buttons. *)
Abbreviation markup := (list (list InlineKeyboardButton)).

Definition url_button (t u : string) : InlineKeyboardButton :=
  {| btn_text := t; btn_url := Some u; btn_callback_data := None |}.

Definition callback_button (t d : string) : InlineKeyboardButton :=
  {| btn_text := t; btn_url := None; btn_callback_data := Some d |}.

(** Python exceptions. [OtherError] stands for every exception class the
    handlers do not name (transport and provider errors). *)
Inductive exn :=
| IndexError
| KeyError
| ValueError (msg : string)
| OtherError (msg : string).

(** The two repairs of line 192.  [Dedented]: the [elif] is moved to the
    indentation of the [if] of line 175, and lines 193-263 are the branch of
    the dispatch for the identifiers that start with [platform_].
    [Dropped]: the line is removed, and lines 193-263 stay where their
    indentation puts them, at the end of the block of line 175. *)
Inductive line_192 :=
| Dedented
| Dropped.

(** The calls that leave the process. *)
Inductive call :=
| SendMessage (chat : Z) (txt : string)
| ReplyTo (m : message) (txt : string)
| EditMessageText (chat mid : Z) (txt : string) (parse_mode : option string)
    (reply_markup : markup)
| AnswerCallbackQuery (cid : string) (txt : string)
| SendPhoto (chat : Z) (photo : list byte) (caption : string)
    (parse_mode : option string) (reply_markup : markup)
| TavilySearch (query search_depth : string)
| GeminiGenerateContent (prompt : string)
| RequestsPost (url authorization inputs : string) (timeout : Z).

Definition is_telegram (c : call) : bool :=
  match c with
  | TavilySearch _ _ | GeminiGenerateContent _ | RequestsPost _ _ _ _ => false
  | _ => true
  end.

(** A provider call: search, text generation or image generation. *)
Definition is_provider (c : call) : bool := negb (is_telegram c).

Definition is_image_call (c : call) : bool :=
  match c with RequestsPost _ _ _ _ => true | _ => false end.

Definition is_photo (c : call) : bool :=
  match c with SendPhoto _ _ _ _ _ => true | _ => false end.

(** What the outside world does during one event. *)
Record env := {
  now : string;                                   (* datetime.now().isoformat() *)
  telegram_raises : call -> option exn;           (* a Telegram call that fails *)
  sent_message_id : Z;                            (* id of the message line 88 sends *)
  tavily_answer : string -> exn + search_response;
  gemini_answer : string -> exn + string;         (* response.text *)
  hf_answer : string -> exn + http_response
}.

(** The mutable state of the process, and the log of its outbound calls. *)
Record world := {
  user_sessions : gmap Z session;
  calls : list call
}.

(** ** A monad for Python control flow

    A computation runs on a world and ends normally with a value, by a
    [return r] of the enclosing function, or by an exception. *)

Inductive outcome (R A : Type) :=
| Normal (a : A)
| Returned (r : R)
| Raised (e : exn).
Arguments Normal {R A} a.
Arguments Returned {R A} r.
Arguments Raised {R A} e.

Definition M (R A : Type) : Type := world -> outcome R A * world.

#[global] Instance M_ret {R} : MRet (M R) := fun A a w => (Normal a, w).

#[global] Instance M_bind {R} : MBind (M R) := fun A B f m w =>
  match m w with
  | (Normal a, w') => f a w'
  | (Returned r, w') => (Returned r, w')
  | (Raised e, w') => (Raised e, w')
  end.

#[global] Instance M_fmap {R} : FMap (M R) := fun A B f m w =>
  match m w with
  | (Normal a, w') => (Normal (f a), w')
  | (Returned r, w') => (Returned r, w')
  | (Raised e, w') => (Raised e, w')
  end.

Definition return_ {R A} (r : R) : M R A := fun w => (Returned r, w).

Definition raise {R A} (e : exn) : M R A := fun w => (Raised e, w).

(** [try: body except ...: handler]; the handler chooses by the exception. *)
Definition try_except {R A} (body : M R A) (handler : exn -> M R A) : M R A :=
  fun w =>
    match body w with
    | (Raised e, w') => handler e w'
    | r => r
    end.

(** A call of a function with body [body]: the value it returns, [None] when
    control falls off its end. *)
Definition call_function {R R' A} (body : M (option R) A) : M R' (option R) :=
  fun w =>
    match body w with
    | (Normal _, w') => (Normal None, w')
    | (Returned r, w') => (Normal r, w')
    | (Raised e, w') => (Raised e, w')
    end.

(** [l[i]] *)
Definition getitem {R A} (l : list A) (i : nat) : M R A :=
  match l !! i with
  | Some x => mret x
  | None => raise IndexError
  end.

Definition record_call {R} (c : call) : M R unit :=
  fun w => (Normal tt, {| user_sessions := user_sessions w; calls := calls w ++ [c] |}).

(** [user_sessions[chat_id]] *)
Definition sessions_getitem {R} (chat : Z) : M R session :=
  fun w =>
    match user_sessions w !! chat with
    | Some s => (Normal s, w)
    | None => (Raised KeyError, w)
    end.

(** [chat_id in user_sessions] *)
Definition sessions_contains {R} (chat : Z) : M R bool :=
  fun w => (Normal (bool_decide (is_Some (user_sessions w !! chat))), w).

(** [user_sessions[chat_id] = s] *)
Definition sessions_setitem {R} (chat : Z) (s : session) : M R unit :=
  fun w => (Normal tt, {| user_sessions := <[chat := s]> (user_sessions w); calls := calls w |}).

(** [session['content'] = v] and [session['timestamp'] = v], where [session]
    is the dictionary stored under [chat]: the assignment is seen through
    [user_sessions]. *)
Definition set_content (v : string) (s : session) : session :=
  {| results := results s; search_query := search_query s;
     timestamp := timestamp s; content := Some v |}.

Definition set_timestamp (v : string) (s : session) : session :=
  {| results := results s; search_query := search_query s;
     timestamp := v; content := content s |}.

Definition session_update {R} (chat : Z) (f : session -> session) : M R unit :=
  fun w => (Normal tt, {| user_sessions := alter f chat (user_sessions w); calls := calls w |}).

(** ** The program *)

Section Bot.

Variable READING : line_192.
Variable E : env.
Variable HF_API_TOKEN : string.

(** *** Outbound calls *)

Definition telegram {R} (c : call) : M R unit :=
  record_call c;;
  match telegram_raises E c with
  | Some e => raise e
  | None => mret tt
  end.

Definition bot_send_message {R} (chat : Z) (txt : string) : M R message :=
  telegram (SendMessage chat txt);;
  mret {| chat_id := chat; message_id := sent_message_id E; text := txt |}.

Definition bot_reply_to {R} (m : message) (txt : string) : M R unit :=
  telegram (ReplyTo m txt).

Definition bot_edit_message_text {R} (chat mid : Z) (txt : string)
    (parse_mode : option string) (reply_markup : markup) : M R unit :=
  telegram (EditMessageText chat mid txt parse_mode reply_markup).

Definition bot_answer_callback_query {R} (cid txt : string) : M R unit :=
  telegram (AnswerCallbackQuery cid txt).

Definition bot_send_photo {R} (chat : Z) (photo : list byte) (caption : string)
    (parse_mode : option string) (reply_markup : markup) : M R unit :=
  telegram (SendPhoto chat photo caption parse_mode reply_markup).

Definition tavily_search {R} (query search_depth : string) : M R search_response :=
  record_call (TavilySearch query search_depth);;
  match tavily_answer E query with
  | inl e => raise e
  | inr r => mret r
  end.

(** [gemini.generate_content(prompt)] followed by the read of
    [response.text]; both sit in the same [try]. *)
Definition gemini_generate_content {R} (prompt : string) : M R string :=
  record_call (GeminiGenerateContent prompt);;
  match gemini_answer E prompt with
  | inl e => raise e
  | inr t => mret t
  end.

Definition requests_post {R} (url authorization inputs : string) (timeout : Z)
    : M R http_response :=
  record_call (RequestsPost url authorization inputs timeout);;
  match hf_answer E inputs with
  | inl e => raise e
  | inr r => mret r
  end.

(** *** [generate_image] (lines 56-77) *)

Definition API_URL : string :=
  "https://api-inference.huggingface.co/models/stabilityai/stable-diffusion-xl-base-1.0".

Definition generate_image {R} (prompt : string) : M R (option (list byte)) :=
  call_function (A := unit)
    (try_except
       (response ← requests_post API_URL ("Bearer " +:+ HF_API_TOKEN) prompt 120;
        if status_code response =? 200
        then return_ (Some (resp_content response))
        else return_ None)
       (fun _ => return_ None)).

(** *** [handle_search] (lines 79-157) *)

(** line 98 *)
Definition capped_results (search_response : search_response) : list result :=
  take 25 (default [] (sr_results search_response)).

(** lines 126-129: one row per result *)
Definition result_row (result : result) : list InlineKeyboardButton :=
  [ url_button ("🌐 " +:+ str_take 20 (default "No Title" (r_title result)) +:+ "...")
      (default "" (r_url result)) ].

(** lines 125-135 *)
Definition search_markup (results : list result) : markup :=
  (result_row <$> results)
  ++ [[ callback_button "✅ Generate Content" "generate_content" ]].

(** line 142: [res['title']] and [res['url']] raise on a missing key *)
Definition result_line {R} (res : result) : M R string :=
  match r_title res, r_url res with
  | Some t, Some u => mret ("• [" +:+ t +:+ "](" +:+ u +:+ ")")
  | _, _ => raise KeyError
  end.

Definition SEARCHING : string := "🔍 Searching the web...".
Definition NO_RESULTS : string := "⚠️ No relevant results found. Try a different query.".
Definition SEARCH_FAILED : string := "⚠️ Search failed. Please try again later.".
Definition USAGE : string := "⚠️ Please provide a search query. Usage: /search [your query]".
Definition UNEXPECTED : string := "⚠️ An unexpected error occurred. Please try again.".

Definition handle_search (message : message) : M unit unit :=
  try_except
    (query ← strip <$> getitem (split_once " " (text message)) 1;
     let chat_id := chat_id message in
     msg ← bot_send_message chat_id SEARCHING;
     results ←
       try_except
         (search_response ← tavily_search query "advanced";
          let results := capped_results search_response in
          match results with
          | [] => bot_reply_to message NO_RESULTS;; return_ tt
          | _ => mret results
          end)
         (fun _ => bot_reply_to message SEARCH_FAILED;; return_ tt);
     sessions_setitem chat_id
       {| results := results; search_query := query;
          timestamp := now E; content := None |};;
     let markup := search_markup results in
     lines ← mapM result_line results;
     bot_edit_message_text chat_id (message_id msg)
       ("*Web Search Results:*" +:+ nl +:+ join (nl +:+ nl) lines)
       (Some "Markdown") markup)
    (fun e =>
       match e with
       | IndexError => bot_reply_to message USAGE
       | _ => bot_reply_to message UNEXPECTED
       end).

(** *** [handle_all_callbacks] (lines 159-400) *)

(** lines 205 and 333 *)
Definition build_context (results : list result) : string :=
  join (nl +:+ nl)
    (imap (fun i res =>
             "Source " +:+ str_of_nat (i + 1) +:+ ":" +:+ nl
             +:+ default "" (r_content res))
       results).

Definition indent : string := "            ".

(** lines 209-218: the f-string around [{context[:5000]}] *)
Definition initial_template (segment : string) : string :=
  join nl
    [ "Create engaging social media content based on these research findings:";
      indent;
      indent +:+ segment;
      indent;
      indent +:+ "Format for these platforms:";
      indent +:+ "1. Twitter: 280-character post with 3 relevant hashtags";
      indent +:+ "2. Instagram: Caption under 2200 chars with 5 emojis";
      indent +:+ "3. LinkedIn: Professional post under 3000 chars with key insights";
      indent;
      indent +:+ "Structure with clear platform headings. Ensure factual accuracy." ].

Definition initial_prompt (context : string) : string :=
  initial_template (str_take 5000 context).

(** lines 337-346: the f-string around [{context[:5000]}] *)
Definition regenerate_template (segment : string) : string :=
  join nl
    [ "Regenerate the social media content with a different style:";
      indent;
      indent +:+ "Original context:";
      indent +:+ segment;
      indent;
      indent +:+ "Requirements:";
      indent +:+ "- More casual/informal tone";
      indent +:+ "- Use different emojis/hashtags";
      indent +:+ "- Alternative structure";
      indent +:+ "- Keep platform-specific formatting" ].

Definition regenerate_prompt (context : string) : string :=
  regenerate_template (str_take 5000 context).

Definition SESSION_EXPIRED : string := "❌ Session expired. Start a new search.".
Definition MISSING_DATA : string := "❌ Missing data. Start new search.".
Definition UNKNOWN_COMMAND : string := "⚠️ Unknown command".
Definition ERROR_OCCURRED : string := "⚠️ An error occurred".
Definition IMAGE_FAILED : string := "⚠️ Image generation failed".

(** lines 179-184 *)
Definition platform_markup : markup :=
  [[ callback_button "🐦 Twitter" "platform_twitter";
     callback_button "📸 Instagram" "platform_instagram";
     callback_button "🔗 LinkedIn" "platform_linkedin" ]].

(** lines 240-244 *)
Definition content_markup : markup :=
  [[ callback_button "🔄 Regenerate" "regenerate";
     callback_button "📤 Post" "post_content" ]].

(** lines 368-372 *)
Definition revised_markup : markup :=
  [[ callback_button "🔄 Regenerate" "regenerate";
     callback_button "📤 Post" "create_thumbnail" ]].

(** lines 269-273 *)
Definition image_choice_markup : markup :=
  [[ callback_button "🖼️ Default Prompt" "default_prompt";
     callback_button "🖼️ Custom Prompt" "custom_prompt" ]].

(** lines 299-303 *)
Definition sharing_markup : markup :=
  [[ url_button "🐦 Twitter" "https://twitter.com/intent/tweet";
     url_button "📸 Instagram" "https://www.instagram.com/" ]].

(** the truth value of [image_data] (line 296) *)
Definition truthy_bytes (image_data : option (list byte)) : bool :=
  match image_data with
  | Some (_ :: _) => true
  | _ => false
  end.

(** lines 193-263 *)
Definition platform_block (call : callback_query) (session : session) : M unit unit :=
  let chat_id := chat_id (cq_message call) in
  platform ← getitem (split "_" (data call)) 1;
  match results session with
  | [] => bot_answer_callback_query (id call) MISSING_DATA;; return_ tt
  | _ => mret tt
  end;;
  let results := results session in
  let context := build_context results in
  let prompt := initial_prompt context in
  try_except
    (response_text ← gemini_generate_content prompt;
     (if String.eqb response_text ""
      then raise (ValueError "Empty response from Gemini")
      else mret tt);;
     session_update chat_id (set_content response_text);;
     session_update chat_id (set_timestamp (now E));;
     let markup := content_markup in
     try_except
       (bot_edit_message_text chat_id (message_id (cq_message call))
          ("*Generated Content:*" +:+ nl +:+ nl +:+ response_text)
          (Some "Markdown") markup)
       (fun _ =>
          bot_answer_callback_query (id call)
            "⚠️ Message too long. Try a different query."))
    (fun e =>
       bot_answer_callback_query (id call) "⚠️ Content generation failed";;
       raise e).

(** Lines 159-400, for the reading [READING] of line 192: with
    [Dedented], lines 193-263 are the second branch of the dispatch; with
    [Dropped], they end the block of line 175. *)
Definition handle_all_callbacks (call : callback_query) : M unit unit :=
  try_except
    (let chat_id := chat_id (cq_message call) in
     known ← sessions_contains chat_id;
     (if negb known
      then bot_answer_callback_query (id call) SESSION_EXPIRED;; return_ tt
      else mret tt);;
     session ← sessions_getitem chat_id;
     if String.eqb (data call) "generate_content" then
       bot_edit_message_text chat_id (message_id (cq_message call))
         "Select the platform for which you want to generate content:"
         None platform_markup;;
       match READING with
       | Dedented => mret tt
       | Dropped => platform_block call session
       end
     else if match READING with
             | Dedented => startswith "platform_" (data call)
             | Dropped => false
             end then
       platform_block call session
     else if String.eqb (data call) "create_thumbnail" then
       bot_edit_message_text chat_id (message_id (cq_message call))
         "Choose an option for image generation:"
         None image_choice_markup;;
       (return_ tt : M unit unit);;
       (* lines 282-319 follow the [return] of line 280 *)
       match content session with
       | None | Some "" =>
           bot_answer_callback_query (id call) "❌ No content available";; return_ tt
       | Some _ => mret tt
       end;;
       let content := default "" (content session) in
       let image_prompt := "Social media thumbnail image for: " +:+ str_take 500 content in
       image_data ← generate_image image_prompt;
       if truthy_bytes image_data then
         try_except
           (bot_send_photo chat_id (default [] image_data)
              "*Your post is ready!*" (Some "Markdown") sharing_markup)
           (fun _ => bot_answer_callback_query (id call) "⚠️ Failed to send image")
       else
         bot_answer_callback_query (id call) IMAGE_FAILED
     else if String.eqb (data call) "regenerate" then
       match results session with
       | [] => bot_answer_callback_query (id call) MISSING_DATA;; return_ tt
       | _ => mret tt
       end;;
       let results := results session in
       let context := build_context results in
       let prompt := regenerate_prompt context in
       try_except
         (response_text ← gemini_generate_content prompt;
          (if String.eqb response_text ""
           then raise (ValueError "Empty regeneration response from Gemini")
           else mret tt);;
          session_update chat_id (set_content response_text);;
          session_update chat_id (set_timestamp (now E));;
          let markup := revised_markup in
          try_except
            (bot_edit_message_text chat_id (message_id (cq_message call))
               ("*Revised Content:*" +:+ nl +:+ nl +:+ response_text)
               (Some "Markdown") markup)
            (fun _ =>
               bot_answer_callback_query (id call) "⚠️ Regenerated content too long"))
         (fun e =>
            bot_answer_callback_query (id call) "⚠️ Regeneration failed";;
            raise e)
     else
       bot_answer_callback_query (id call) UNKNOWN_COMMAND)
    (fun _ => bot_answer_callback_query (id call) ERROR_OCCURRED).

End Bot.

(** ** Events

    The polling loop hands each update to its handler and goes on to the next
    one, whatever the handler does; an exception that leaves a handler is
    dropped by the loop ([none_stop=True]). *)

Inductive event :=
| Search (m : message)          (* a message starting with the /search command *)
| Callback (c : callback_query).

Definition handler (r : line_192) (E : env) (token : string) (ev : event) : M unit unit :=
  match ev with
  | Search m => handle_search E m
  | Callback c => handle_all_callbacks r E token c
  end.

(** The exception that escaped the handler, if any, and the world it leaves. *)
Definition run_handler (h : M unit unit) (w : world) : option exn * world :=
  match h w with
  | (Raised e, w') => (Some e, w')
  | (_, w') => (None, w')
  end.

Definition step (r : line_192) (E : env) (token : string) (ev : event) (w : world) : world :=
  (run_handler (handler r E token ev) w).2.

Definition run (r : line_192) (token : string) (evs : list (env * event)) (w : world) : world :=
  foldl (fun w p => step r p.1 token p.2 w) w evs.

(** The calls made while [w] became [w']. *)
Definition new_calls (w w' : world) : list call :=
  drop (length (calls w)) (calls w').

Definition initial_world : world := {| user_sessions := ∅; calls := [] |}.

(** ** Notions used by the statements *)

(** [c in s] for a character [c] *)
Fixpoint contains_char (c : ascii) (s : string) : bool :=
  match s with
  | "" => false
  | String c' s' => Ascii.eqb c' c || contains_char c s'
  end.

(** What the handler of [/search] does when it finds no query: it replies
    with the usage notice, calls no provider and leaves every session as it
    was. *)
Definition usage_reply (r : line_192) (E : env) (token : string) (m : message) (w : world) : Prop :=
  let w' := step r E token (Search m) w in
  ReplyTo m USAGE ∈ new_calls w w'
  ∧ Forall (fun k => is_provider k = false) (new_calls w w')
  ∧ user_sessions w' = user_sessions w.

(** The event [p] is a regenerate callback of chat [chat] whose generation
    succeeds with the text [t], for a session whose results are [rs]. *)
Definition regenerate_ok (chat : Z) (rs : list result) (p : env * event) (t : string) : Prop :=
  exists c,
    p.2 = Callback c
    ∧ chat_id (cq_message c) = chat
    ∧ data c = "regenerate"
    ∧ gemini_answer p.1 (regenerate_prompt (build_context rs)) = inr t
    ∧ t ≠ "".

(** Every stored session has at least one result. *)
Definition all_have_results (m : gmap Z session) : Prop :=
  map_Forall (fun _ s => results s ≠ []) m.

(** ** Sample inputs *)

Definition sample_result (n : string) : result :=
  {| r_title := Some ("Title " +:+ n);
     r_url := Some ("https://example.org/" +:+ n);
     r_content := Some ("Snippet " +:+ n) |}.

Definition sample_results : list result :=
  [sample_result "1"; sample_result "2"; sample_result "3"].

Definition thirty_results : list result :=
  (fun i => sample_result (str_of_nat i)) <$> seq 0 30.

(** A record whose snippet has 9990 characters: with its label of 10
    characters, the context of the list that holds it alone has 10000. *)
Definition long_result : result :=
  {| r_title := Some "Long read";
     r_url := Some "https://example.org/long";
     r_content := Some (string_of_list_ascii (replicate 9990 "x"%char)) |}.

(** An environment in which Telegram never fails, the search finds [found],
    the generation gives [generated] and the image endpoint answers with the
    status [status]. *)
Definition sample_env (found : list result) (generated : string) (status : Z) : env :=
  {| now := "2024-05-01T10:00:00";
     telegram_raises := fun _ => None;
     sent_message_id := 8;
     tavily_answer := fun _ => inr {| sr_results := Some found |};
     gemini_answer := fun _ => inr generated;
     hf_answer := fun _ =>
       inr {| status_code := status; resp_content := []; resp_text := "" |} |}.

Definition sample_message (txt : string) : message :=
  {| chat_id := 42; message_id := 7; text := txt |}.

Definition sample_callback (d : string) : callback_query :=
  {| id := "cb1"; data := d; cq_message := sample_message "" |}.

Definition sample_session : session :=
  {| results := sample_results; search_query := "rust vs go";
     timestamp := "2024-05-01T09:00:00"; content := Some "Tweet: ..." |}.

Definition sample_world : world :=
  {| user_sessions := {[ 42 := sample_session ]}; calls := [] |}.

(** ** Start-up (lines 16-54) *)

(** The four variables read with [os.getenv]: a string, or [None]. *)
Record config := {
  TELEGRAM_TOKEN : option string;
  TAVILY_API_KEY : option string;
  GEMINI_API_KEY : option string;
  HF_API_TOKEN : option string
}.

(** The truth value of a variable inside [all([...])] (line 23): [None] and
    the empty string are false. *)
Definition truthy_str (v : option string) : bool :=
  match v with
  | Some (String _ _) => true
  | _ => false
  end.

(** lines 18-24 *)
Definition load_config (getenv : string -> option string) : exn + config :=
  let cfg :=
    {| TELEGRAM_TOKEN := getenv "TELEGRAM_TOKEN";
       TAVILY_API_KEY := getenv "TAVILY_API_KEY";
       GEMINI_API_KEY := getenv "GEMINI_API_KEY";
       HF_API_TOKEN := getenv "HF_API_TOKEN" |} in
  if forallb truthy_str
       [TELEGRAM_TOKEN cfg; TAVILY_API_KEY cfg; GEMINI_API_KEY cfg; HF_API_TOKEN cfg]
  then inr cfg
  else inl (ValueError "Missing one or more required environment variables").

(** The client objects the module builds. *)
Inductive client :=
| TeleBot (token : option string)
| TavilyClient (api_key : option string)
| GenaiConfigure (api_key : option string)
| GenerativeModel (model_name : string).

Inductive startup_outcome :=
| Exit (code : Z)
| Polling (cfg : config).

(** The statements of one [try] block, in order: the constructions that
    were attempted, and whether one of them raised. *)
Fixpoint construct (init_raises : client -> option exn) (cs : list client)
    : list client * bool :=
  match cs with
  | [] => ([], false)
  | c :: cs' =>
      match init_raises c with
      | Some _ => ([c], true)
      | None => let (done, failed) := construct init_raises cs' in (c :: done, failed)
      end
  end.

(** Module level, lines 16-54 and 402-405: the clients constructed, and how
    the start ends. *)
Definition startup (getenv : string -> option string)
    (init_raises : client -> option exn) : list client * startup_outcome :=
  match load_config getenv with
  | inl _ => ([], Exit 1)
  | inr cfg =>
      let (bots, failed) := construct init_raises [TeleBot (TELEGRAM_TOKEN cfg)] in
      if failed then (bots, Exit 1)
      else
        let (apis, failed) :=
          construct init_raises
            [ TavilyClient (TAVILY_API_KEY cfg);
              GenaiConfigure (GEMINI_API_KEY cfg);
              GenerativeModel "gemini-pro" ] in
        if failed then ((bots ++ apis)%list, Exit 1)
        else ((bots ++ apis)%list, Polling cfg)
  end.

(** ** More notions used by the statements *)

(** The callback identifiers that have a branch in the dispatch of
    [handle_all_callbacks] (lines 175, 265, 321, and line 192 when it is
    read as a branch). *)
Definition dispatched (r : line_192) (d : string) : bool :=
  String.eqb d "generate_content"
  || match r with
     | Dedented => startswith "platform_" d
     | Dropped => false
     end
  || String.eqb d "create_thumbnail" || String.eqb d "regenerate".

(** The callback identifier that leads to lines 193-263. *)
Definition reaches_initial (r : line_192) (d : string) : bool :=
  match r with
  | Dedented => startswith "platform_" d
  | Dropped => String.eqb d "generate_content"
  end.

(** How many calls of a log satisfy [p]. *)
Definition count_calls (p : call -> bool) (l : list call) : nat :=
  length (List.filter p l).

Definition is_generation_call (c : call) : bool :=
  match c with GeminiGenerateContent _ => true | _ => false end.

Definition is_search_call (c : call) : bool :=
  match c with TavilySearch _ _ => true | _ => false end.

(** A record that has both keys line 142 reads. *)
Definition complete (r : result) : bool :=
  bool_decide (is_Some (r_title r)) && bool_decide (is_Some (r_url r)).

(** The line of the result message for a complete record. *)
Definition bullet (r : result) : string :=
  "• [" +:+ default "" (r_title r) +:+ "](" +:+ default "" (r_url r) +:+ ")".

(** The first and the last character of a string. *)
Definition first_char (s : string) : option ascii :=
  match s with
  | "" => None
  | String c _ => Some c
  end.

Fixpoint last_char (s : string) : option ascii :=
  match s with
  | "" => None
  | String c "" => Some c
  | String _ s' => last_char s'
  end.

(** A character that is not blank, or no character at all. *)
Definition not_blank (c : option ascii) : Prop :=
  match c with
  | Some c => isspace c = false
  | None => True
  end.

(** A session as the handlers leave it: at least one result, and a content
    that is a non-empty text when there is one. *)
Definition session_ok (s : session) : Prop :=
  results s ≠ [] ∧ content s ≠ Some "".

(** The exception that leaves the handler of an event, if any. *)
Definition escapes (r : line_192) (E : env) (token : string) (ev : event) (w : world) : option exn :=
  (run_handler (handler r E token ev) w).1.

(** An environment in which Telegram never fails and each provider answers
    as given. *)
Definition scripted_env (search : exn + search_response) (generation : exn + string) : env :=
  {| now := "2024-05-01T10:00:00";
     telegram_raises := fun _ => None;
     sent_message_id := 8;
     tavily_answer := fun _ => search;
     gemini_answer := fun _ => generation;
     hf_answer := fun _ => inl (OtherError "unreachable") |}.

(** An environment like [sample_env] in which the Telegram calls selected by
    [fails] raise. *)
Definition failing_env (fails : call -> bool) (found : list result) (generated : string) : env :=
  {| now := "2024-05-01T10:00:00";
     telegram_raises := fun c => if fails c then Some (OtherError "telegram") else None;
     sent_message_id := 8;
     tavily_answer := fun _ => inr {| sr_results := Some found |};
     gemini_answer := fun _ => inr generated;
     hf_answer := fun _ => inl (OtherError "unreachable") |}.

Definition is_edit (c : call) : bool :=
  match c with EditMessageText _ _ _ _ _ => true | _ => false end.

Definition is_send (c : call) : bool :=
  match c with SendMessage _ _ => true | _ => false end.

(** ** More sample inputs *)

Definition untitled_result : result :=
  {| r_title := None; r_url := Some "https://example.org/x"; r_content := Some "text" |}.

Definition VARIABLES : list string :=
  ["TELEGRAM_TOKEN"; "TAVILY_API_KEY"; "GEMINI_API_KEY"; "HF_API_TOKEN"].

Definition sample_getenv (hf : option string) (name : string) : option string :=
  if String.eqb name "HF_API_TOKEN" then hf else Some ("value-of-" +:+ name).

(** * Reasoning about computations *)

(** [wp m Q w]: running [m] on [w] ends in an outcome and a world that
    satisfy [Q]. *)
Definition wp {R A} (m : M R A) (Q : outcome R A -> world -> Prop) (w : world) : Prop :=
  Q (m w).1 (m w).2.

Definition log (c : call) (w : world) : world :=
  {| user_sessions := user_sessions w; calls := calls w ++ [c] |}.

Definition store (f : gmap Z session -> gmap Z session) (w : world) : world :=
  {| user_sessions := f (user_sessions w); calls := calls w |}.

(** How an outcome is passed on by [bind] and by [try_except]. *)
Definition on_normal {R A B} (k : A -> world -> Prop)
    (Q : outcome R B -> world -> Prop) : outcome R A -> world -> Prop :=
  fun o w =>
    match o with
    | Normal a => k a w
    | Returned r => Q (Returned r) w
    | Raised e => Q (Raised e) w
    end.

Definition on_raised {R A} (k : exn -> world -> Prop)
    (Q : outcome R A -> world -> Prop) : outcome R A -> world -> Prop :=
  fun o w =>
    match o with
    | Raised e => k e w
    | _ => Q o w
    end.

Section WpRules.

Context {R A : Type}.
Implicit Types (Q : outcome R A -> world -> Prop) (w : world).

Lemma wp_ret a Q w : Q (Normal a) w -> wp (mret a) Q w.
Proof. done. Qed.

Lemma wp_return (r : R) Q w : Q (Returned r) w -> wp (return_ r) Q w.
Proof. done. Qed.

Lemma wp_raise e Q w : Q (Raised e) w -> wp (raise e) Q w.
Proof. done. Qed.

Lemma wp_bind {B} (m : M R B) (f : B -> M R A) Q w :
  wp m (on_normal (fun b => wp (f b) Q) Q) w -> wp (m ≫= f) Q w.
Proof.
  unfold wp, on_normal, mbind, M_bind. by destruct (m w) as [[b|r|e] w'].
Qed.

Lemma wp_fmap {B} (m : M R B) (f : B -> A) Q w :
  wp m (on_normal (fun b => Q (Normal (f b))) Q) w -> wp (f <$> m) Q w.
Proof.
  unfold wp, on_normal, fmap, M_fmap. by destruct (m w) as [[b|r|e] w'].
Qed.

Lemma wp_try (body : M R A) (h : exn -> M R A) Q w :
  wp body (on_raised (fun e => wp (h e) Q) Q) w -> wp (try_except body h) Q w.
Proof.
  unfold wp, on_raised, try_except. by destruct (body w) as [[b|r|e] w'].
Qed.

Lemma wp_getitem (l : list A) i Q w :
  match l !! i with
  | Some x => Q (Normal x) w
  | None => Q (Raised IndexError) w
  end ->
  wp (getitem l i) Q w.
Proof. unfold getitem. by destruct (l !! i). Qed.

End WpRules.

Section WpPrimitives.

Context {R : Type}.
Variable E : env.

Lemma wp_call_function {R' B} (body : M (option R') B) (Q : outcome R (option R') -> world -> Prop) w :
  wp body (fun o w' =>
             match o with
             | Normal _ => Q (Normal None) w'
             | Returned r => Q (Normal r) w'
             | Raised e => Q (Raised e) w'
             end) w ->
  wp (call_function body) Q w.
Proof. unfold wp, call_function. by destruct (body w) as [[b|r|e] w']. Qed.

Lemma wp_record_call c (Q : outcome R unit -> world -> Prop) w :
  Q (Normal tt) (log c w) -> wp (record_call c) Q w.
Proof. done. Qed.

Lemma wp_sessions_contains chat (Q : outcome R bool -> world -> Prop) w :
  Q (Normal (bool_decide (is_Some (user_sessions w !! chat)))) w ->
  wp (sessions_contains chat) Q w.
Proof. done. Qed.

Lemma wp_sessions_getitem chat (Q : outcome R session -> world -> Prop) w :
  match user_sessions w !! chat with
  | Some s => Q (Normal s) w
  | None => Q (Raised KeyError) w
  end ->
  wp (sessions_getitem chat) Q w.
Proof. unfold wp, sessions_getitem. by destruct (user_sessions w !! chat). Qed.

Lemma wp_sessions_setitem chat s (Q : outcome R unit -> world -> Prop) w :
  Q (Normal tt) (store <[chat := s]> w) -> wp (sessions_setitem chat s) Q w.
Proof. done. Qed.

Lemma wp_session_update chat f (Q : outcome R unit -> world -> Prop) w :
  Q (Normal tt) (store (alter f chat) w) -> wp (session_update chat f) Q w.
Proof. done. Qed.

Lemma wp_telegram c (Q : outcome R unit -> world -> Prop) w :
  match telegram_raises E c with
  | Some e => Q (Raised e) (log c w)
  | None => Q (Normal tt) (log c w)
  end ->
  wp (telegram E c) Q w.
Proof.
  intros H. unfold telegram. apply wp_bind, wp_record_call. simpl.
  by destruct (telegram_raises E c).
Qed.

Lemma wp_send_message chat txt (Q : outcome R message -> world -> Prop) w :
  match telegram_raises E (SendMessage chat txt) with
  | Some e => Q (Raised e) (log (SendMessage chat txt) w)
  | None =>
      Q (Normal {| chat_id := chat; message_id := sent_message_id E; text := txt |})
        (log (SendMessage chat txt) w)
  end ->
  wp (bot_send_message E chat txt) Q w.
Proof.
  intros H. unfold bot_send_message. apply wp_bind, wp_telegram.
  by destruct (telegram_raises E _).
Qed.

Lemma wp_tavily_search q depth (Q : outcome R search_response -> world -> Prop) w :
  match tavily_answer E q with
  | inl e => Q (Raised e) (log (TavilySearch q depth) w)
  | inr r => Q (Normal r) (log (TavilySearch q depth) w)
  end ->
  wp (tavily_search E q depth) Q w.
Proof.
  intros H. unfold tavily_search. apply wp_bind, wp_record_call. simpl.
  by destruct (tavily_answer E q).
Qed.

Lemma wp_gemini prompt (Q : outcome R string -> world -> Prop) w :
  match gemini_answer E prompt with
  | inl e => Q (Raised e) (log (GeminiGenerateContent prompt) w)
  | inr t => Q (Normal t) (log (GeminiGenerateContent prompt) w)
  end ->
  wp (gemini_generate_content E prompt) Q w.
Proof.
  intros H. unfold gemini_generate_content. apply wp_bind, wp_record_call. simpl.
  by destruct (gemini_answer E prompt).
Qed.

Lemma wp_requests_post url auth inputs timeout
    (Q : outcome R http_response -> world -> Prop) w :
  match hf_answer E inputs with
  | inl e => Q (Raised e) (log (RequestsPost url auth inputs timeout) w)
  | inr r => Q (Normal r) (log (RequestsPost url auth inputs timeout) w)
  end ->
  wp (requests_post E url auth inputs timeout) Q w.
Proof.
  intros H. unfold requests_post. apply wp_bind, wp_record_call. simpl.
  by destruct (hf_answer E inputs).
Qed.

(** Line 142 reads the records and leaves the world alone. *)
Lemma wp_result_lines (l : list result) (Q : outcome R (list string) -> world -> Prop) w :
  (forall lines, Q (Normal lines) w) ->
  Q (Raised KeyError) w ->
  wp (mapM result_line l) Q w.
Proof.
  revert Q. induction l as [|res l IH]; intros Q HN HK; [apply HN|].
  simpl. apply wp_bind. unfold result_line.
  destruct (r_title res), (r_url res); try exact HK.
  simpl. apply wp_bind, IH; [|exact HK].
  intros lines. simpl. apply HN.
Qed.

End WpPrimitives.

(** ** Running a handler symbolically *)

Lemma step_wp r E token ev (P : world -> Prop) w :
  wp (handler r E token ev) (fun _ w' => P w') w -> P (step r E token ev w).
Proof.
  unfold wp, step, run_handler. by destruct (handler r E token ev w) as [[?|?|?] ?].
Qed.

Lemma contains_true (m : gmap Z session) chat s :
  m !! chat = Some s -> bool_decide (is_Some (m !! chat)) = true.
Proof. intros ->. by apply bool_decide_eq_true_2. Qed.

Lemma contains_false (m : gmap Z session) chat :
  m !! chat = None -> bool_decide (is_Some (m !! chat)) = false.
Proof. intros ->. apply bool_decide_eq_false_2. by intros [? ?]. Qed.

(** Use a known value of [x] if the context has one, else split on it. *)
Ltac case_on x :=
  first [ match goal with H : x = _ |- _ => rewrite H end
        | let v := eval vm_compute in x in
          lazymatch v with
          | true => change x with true
          | false => change x with false
          end
        | destruct x eqn:? ].

Ltac world_norm :=
  cbv beta iota zeta;
  cbn [log store user_sessions calls on_normal on_raised negb].

Ltac wp_step :=
  lazymatch goal with
  | |- context [match ?r with Dedented => _ | Dropped => _ end] => destruct r
  | |- context [bool_decide (is_Some (?m !! ?k))] =>
      first [ erewrite (contains_true m k) by eassumption
            | rewrite (contains_false m k) by assumption
            | destruct (m !! k) eqn:? ]
  | |- wp (_ ≫= _) _ _ => apply wp_bind
  | |- wp (_ <$> _) _ _ => apply wp_fmap
  | |- wp (try_except _ _) _ _ => apply wp_try
  | |- wp (mapM result_line _) _ _ => apply wp_result_lines; [intros ?|]
  | |- wp (mret _) _ _ => apply wp_ret
  | |- wp (return_ _) _ _ => apply wp_return
  | |- wp (raise _) _ _ => apply wp_raise
  | |- wp (getitem _ _) _ _ => apply wp_getitem
  | |- wp (call_function _) _ _ => apply wp_call_function
  | |- wp (generate_image _ _ _) _ _ => unfold generate_image
  | |- wp (sessions_contains _) _ _ => apply wp_sessions_contains
  | |- wp (sessions_getitem _) _ _ => apply wp_sessions_getitem
  | |- wp (sessions_setitem _ _) _ _ => apply wp_sessions_setitem
  | |- wp (session_update _ _) _ _ => apply wp_session_update
  | |- wp (bot_send_message _ _ _) _ _ => apply wp_send_message
  | |- wp (bot_reply_to _ _ _) _ _ => apply wp_telegram
  | |- wp (bot_edit_message_text _ _ _ _ _ _) _ _ => apply wp_telegram
  | |- wp (bot_answer_callback_query _ _ _) _ _ => apply wp_telegram
  | |- wp (bot_send_photo _ _ _ _ _ _) _ _ => apply wp_telegram
  | |- wp (tavily_search _ _ _) _ _ => apply wp_tavily_search
  | |- wp (gemini_generate_content _ _) _ _ => apply wp_gemini
  | |- wp (requests_post _ _ _ _ _) _ _ => apply wp_requests_post
  | |- wp (match results ?s with _ => _ end) _ _ =>
      let H := fresh "Hresults" in
      destruct (results s) eqn:H; [|cbv beta iota; rewrite <- ?H in *]
  | |- wp (if ?b then _ else _) _ _ => case_on b
  | |- wp (match ?x with _ => _ end) _ _ => case_on x
  | |- match ?x with _ => _ end => case_on x
  end; world_norm.

Ltac wp_run := world_norm; repeat wp_step.

(** Put the log of a final world in the form [calls w ++ l]. *)
Ltac calls_norm :=
  unfold new_calls; cbn [log store user_sessions calls];
  rewrite <- ?app_assoc, ?drop_app_length, ?drop_all; cbn [app].

(** * Python strings: checks and lemmas *)

Example split_once_cmd : split_once " " "/search rust vs go" = ["/search"; "rust vs go"].
Proof. reflexivity. Qed.

Example split_once_bare : split_once " " "/search" = ["/search"].
Proof. reflexivity. Qed.

Example split_platform : split "_" "platform_twitter" = ["platform"; "twitter"].
Proof. reflexivity. Qed.

Example strip_both : strip "  rust vs go  " = "rust vs go".
Proof. reflexivity. Qed.

Example str_of_nat_12 : str_of_nat 12 = "12".
Proof. reflexivity. Qed.

Example segments_ex : segments "/search  a b " = ["/search"; "a"; "b"].
Proof. reflexivity. Qed.

Lemma str_take_length n s :
  String.length (str_take n s) = (n `min` String.length s)%nat.
Proof.
  revert s. induction n as [|n IH]; intros [|c s]; simpl; try done.
  by rewrite IH.
Qed.

Lemma str_take_prefix n s : exists rest, s = str_take n s +:+ rest.
Proof.
  revert s. induction n as [|n IH]; intros s.
  - exists s. by destruct s.
  - destruct s as [|c s]; [by exists ""|].
    destruct (IH s) as [rest Hrest]. exists rest.
    change (String c s = String c (str_take n s +:+ rest)). by f_equal.
Qed.

Lemma str_take_all n s : (String.length s <= n)%nat -> str_take n s = s.
Proof.
  revert s. induction n as [|n IH]; intros [|c s] Hlen; simpl in *; try done; try lia.
  rewrite IH; [done|lia].
Qed.

Lemma break_at_none c s : contains_char c s = false -> break_at c s = None.
Proof.
  induction s as [|c' s IH]; simpl; [done|].
  destruct (Ascii.eqb c' c); simpl; [done|].
  intros H. by rewrite IH.
Qed.

Lemma split_once_no_sep c s :
  contains_char c s = false -> split_once c s !! 1%nat = None.
Proof. intros H. unfold split_once. by rewrite break_at_none. Qed.

Lemma split_once_sep c s :
  contains_char c s = true -> is_Some (split_once c s !! 1%nat).
Proof.
  intros H. unfold split_once.
  assert (is_Some (break_at c s)) as [[a b] ->]; [|by eexists].
  induction s as [|c' s IH]; simpl in *; [done|].
  destruct (Ascii.eqb c' c); simpl in *; [by eexists|].
  destruct (IH H) as [[a b] ->]. by eexists.
Qed.

Lemma startswith_app p s : startswith p s = true -> exists r, s = p +:+ r.
Proof.
  unfold startswith. revert s. induction p as [|a p IH]; intros s H.
  - by exists s.
  - destruct s as [|b s]; simpl in H; [done|].
    destruct (ascii_dec a b) as [->|]; [|done].
    destruct (IH s H) as [r ->]. by exists r.
Qed.

Lemma split_nonempty sep s : split sep s ≠ [].
Proof.
  destruct s as [|c s]; simpl; [done|].
  destruct (Ascii.eqb c sep); [done|]. by destruct (split sep s).
Qed.

(** A callback identifier of the platform family has a second segment, and
    is not the identifier of another branch of the dispatch. *)
Lemma platform_split d :
  startswith "platform_" d = true -> exists p, split "_" d !! 1%nat = Some p.
Proof.
  intros [r ->]%startswith_app.
  change ("platform_" +:+ r) with
    (String "p" (String "l" (String "a" (String "t" (String "f"
      (String "o" (String "r" (String "m" (String "_" r))))))))).
  simpl.
  pose proof (split_nonempty "_" r) as Hne.
  destruct (split "_" r) as [|h t]; [done|]. by exists h.
Qed.

Lemma platform_not_generate d :
  startswith "platform_" d = true -> String.eqb d "generate_content" = false.
Proof.
  intros H. destruct (String.eqb_spec d "generate_content") as [->|]; [|done].
  by vm_compute in H.
Qed.

(** * The session flow *)

Ltac start_handler :=
  apply step_wp;
  unfold handler, handle_search, handle_all_callbacks, platform_block.

Ltac finish_calls :=
  calls_norm; repeat split; repeat constructor.

(** C3: a callback of a chat that has no session is answered first of all
    with the session-expired notice, calls no provider (search, text
    generation, image), and leaves the session store as it was. *)
Theorem no_session_callback_rejected r E token c w :
  user_sessions w !! chat_id (cq_message c) = None ->
  let w' := step r E token (Callback c) w in
  head (new_calls w w') = Some (AnswerCallbackQuery (id c) SESSION_EXPIRED)
  ∧ Forall (fun k => is_provider k = false) (new_calls w w')
  ∧ user_sessions w' = user_sessions w.
Proof.
  intros Hno w'. subst w'. start_handler. wp_run; finish_calls.
Qed.

Lemma no_session_callback_rejected_witness :
  let c := sample_callback "regenerate" in
  let w' := step Dedented (sample_env sample_results "Tweet: ..." 200) "hf-token" (Callback c) initial_world in
  head (new_calls initial_world w') = Some (AnswerCallbackQuery (id c) SESSION_EXPIRED)
  ∧ Forall (fun k => is_provider k = false) (new_calls initial_world w')
  ∧ user_sessions w' = user_sessions initial_world.
Proof.
  apply (no_session_callback_rejected
           Dedented
           (sample_env sample_results "Tweet: ..." 200) "hf-token"
           (sample_callback "regenerate") initial_world).
  reflexivity.
Defined.

(** C10, as the code has it: a [/search] message whose text has no space
    character gets the usage notice, causes no provider call and changes no
    session. *)
Theorem search_without_space_gets_usage r E token m w :
  contains_char " " (text m) = false -> usage_reply r E token m w.
Proof.
  intros Hsp%split_once_no_sep. unfold usage_reply. start_handler.
  wp_run; finish_calls.
Qed.

Lemma search_without_space_gets_usage_witness :
  usage_reply Dedented (sample_env sample_results "Tweet: ..." 200) "hf-token"
    (sample_message "/search") initial_world.
Proof.
  apply (search_without_space_gets_usage
           Dedented
           (sample_env sample_results "Tweet: ..." 200) "hf-token"
           (sample_message "/search") initial_world).
  reflexivity.
Defined.

(** C10, as stated, fails: the text ["/search "] has a single
    whitespace-separated segment, hence no query after the command, and the
    handler sends the empty query to the search provider and stores a
    session instead of replying with the usage notice. *)
Lemma search_trailing_space_counterexample :
  let m := sample_message "/search " in
  let E := sample_env sample_results "Tweet: ..." 200 in
  segments (text m) = ["/search"]
  ∧ TavilySearch "" "advanced" ∈ new_calls initial_world (step Dedented E "hf-token" (Search m) initial_world)
  ∧ is_Some (user_sessions (step Dedented E "hf-token" (Search m) initial_world) !! 42)
  ∧ ¬ usage_reply Dedented E "hf-token" m initial_world.
Proof.
  assert (new_calls initial_world
            (step Dedented (sample_env sample_results "Tweet: ..." 200) "hf-token"
               (Search (sample_message "/search ")) initial_world) !! 1%nat
          = Some (TavilySearch "" "advanced")) as Hcall by (by vm_compute).
  split; [reflexivity|]. split; [|split].
  - eapply list_elem_of_lookup_2, Hcall.
  - eexists. vm_compute. reflexivity.
  - intros (_ & Hprov & _).
    by apply (Forall_lookup_1 _ _ _ _ Hprov) in Hcall.
Qed.

(** ** An invariant of the store

    Line 117 is reached with a non-empty list only, and no callback touches
    the results: from the empty store on, every session has results. *)

Lemma all_have_results_alter (f : session -> session) k (m : gmap Z session) :
  (forall x, results (f x) = results x) ->
  all_have_results m -> all_have_results (alter f k m).
Proof.
  intros Hf Hm i x [(-> & y & Hy & ->)|[_ Hx]]%lookup_alter_Some.
  - rewrite Hf. by apply (Hm _ _ Hy).
  - by apply (Hm _ _ Hx).
Qed.

Lemma step_keeps_results r E token ev w :
  all_have_results (user_sessions w) ->
  all_have_results (user_sessions (step r E token ev w)).
Proof.
  intros Hw. destruct ev as [m|c]; start_handler; wp_run;
    repeat (apply all_have_results_alter; [done|]);
    try (apply map_Forall_insert_2; [done|]);
    done.
Qed.

Lemma run_keeps_results r token evs w :
  all_have_results (user_sessions w) ->
  all_have_results (user_sessions (run r token evs w)).
Proof.
  revert w. induction evs as [|[E ev] evs IH]; intros w Hw; [done|].
  apply IH. by apply step_keeps_results.
Qed.

Lemma reachable_sessions_have_results r token evs chat s :
  user_sessions (run r token evs initial_world) !! chat = Some s ->
  results s ≠ [].
Proof.
  apply (run_keeps_results r token evs initial_world). apply map_Forall_empty.
Qed.

(** ** Search *)

(** Line 117: once the provider has answered with at least one record, the
    session of the chat is the fresh record, whatever the chat had before and
    whatever happens to the rendering. *)
Lemma handle_search_stores r E token m w q resp :
  split_once " " (text m) !! 1%nat = Some q ->
  telegram_raises E (SendMessage (chat_id m) SEARCHING) = None ->
  tavily_answer E (strip q) = inr resp ->
  capped_results resp ≠ [] ->
  user_sessions (step r E token (Search m) w)
  = <[chat_id m := {| results := capped_results resp; search_query := strip q;
                      timestamp := now E; content := None |}]> (user_sessions w).
Proof.
  intros Hq Hsend Hans Hne. start_handler.
  wp_run; done.
Qed.

(** C4: of the records of the provider's answer, the search keeps the first
    25 in their order when there are more than 25, and all of them unchanged
    when there are 25 or fewer; what it keeps is what the session holds. *)
Theorem search_results_capped r E token m w q resp :
  split_once " " (text m) !! 1%nat = Some q ->
  telegram_raises E (SendMessage (chat_id m) SEARCHING) = None ->
  tavily_answer E (strip q) = inr resp ->
  let provided := default [] (sr_results resp) in
  let returned := capped_results resp in
  ((25 < length provided)%nat ->
     length returned = 25%nat
     ∧ returned = take 25 provided
     ∧ forall i, (i < 25)%nat -> returned !! i = provided !! i)
  ∧ ((length provided <= 25)%nat -> returned = provided)
  ∧ (returned ≠ [] ->
     results <$> user_sessions (step r E token (Search m) w) !! chat_id m
     = Some returned).
Proof.
  intros Hq Hsend Hans provided returned. subst provided returned.
  unfold capped_results at 1 2 3 4. repeat split.
  - rewrite length_take. lia.
  - intros i Hi. by rewrite lookup_take_lt.
  - intros Hle. by apply take_ge.
  - intros Hne. rewrite (handle_search_stores _ _ _ _ _ _ _ Hq Hsend Hans Hne).
    by rewrite lookup_insert_eq.
Qed.

Lemma search_results_capped_witness :
  results <$> user_sessions
    (step Dedented (sample_env thirty_results "Tweet: ..." 200) "hf-token"
       (Search (sample_message "/search rust vs go")) initial_world) !! 42
  = Some (take 25 thirty_results).
Proof.
  apply (search_results_capped
           Dedented
           (sample_env thirty_results "Tweet: ..." 200) "hf-token"
           (sample_message "/search rust vs go") initial_world
           "rust vs go" {| sr_results := Some thirty_results |});
    [reflexivity | reflexivity | reflexivity | by vm_compute].
Defined.

(** C6: when the provider's answer to a search has no record, the user gets
    the empty-result notice and the session store is as before: no session
    is created, and one that existed is untouched. *)
Theorem empty_search_leaves_sessions r E token m w q resp :
  split_once " " (text m) !! 1%nat = Some q ->
  telegram_raises E (SendMessage (chat_id m) SEARCHING) = None ->
  tavily_answer E (strip q) = inr resp ->
  default [] (sr_results resp) = [] ->
  let w' := step r E token (Search m) w in
  ReplyTo m NO_RESULTS ∈ new_calls w w'
  ∧ user_sessions w' = user_sessions w.
Proof.
  intros Hq Hsend Hans Hempty w'. subst w'.
  assert (capped_results resp = []) as Hcap
    by (unfold capped_results; by rewrite Hempty).
  start_handler.
  wp_run; finish_calls.
Qed.

Lemma empty_search_leaves_sessions_witness :
  let E := sample_env [] "Tweet: ..." 200 in
  let m := sample_message "/search rust vs go" in
  let w' := step Dedented E "hf-token" (Search m) sample_world in
  ReplyTo m NO_RESULTS ∈ new_calls sample_world w'
  ∧ user_sessions w' = user_sessions sample_world.
Proof.
  apply (empty_search_leaves_sessions
           Dedented
           (sample_env [] "Tweet: ..." 200) "hf-token"
           (sample_message "/search rust vs go") sample_world
           "rust vs go" {| sr_results := Some [] |});
    reflexivity.
Defined.

(** ** Callbacks *)

Lemma alter_keeps_results (f : session -> session) k (m : gmap Z session) chat s :
  (forall x, results (f x) = results x) ->
  (exists s', m !! chat = Some s' ∧ results s' = results s) ->
  exists s', alter f k m !! chat = Some s' ∧ results s' = results s.
Proof.
  intros Hf (s' & Hs & Hr). rewrite lookup_alter. case_decide as Hk.
  - subst k. rewrite Hs. simpl. eexists. split; [done|]. by rewrite Hf.
  - by exists s'.
Qed.

(** C8: a search that reaches the store replaces the session of the chat by
    a fresh record (the results kept, the query, the time, no content), so
    nothing of an earlier session survives; and no callback changes the
    results of any session. *)
Theorem search_overwrites_callbacks_read r E token :
  (forall m w q resp,
     split_once " " (text m) !! 1%nat = Some q ->
     telegram_raises E (SendMessage (chat_id m) SEARCHING) = None ->
     tavily_answer E (strip q) = inr resp ->
     capped_results resp ≠ [] ->
     user_sessions (step r E token (Search m) w)
     = <[chat_id m := {| results := capped_results resp; search_query := strip q;
                         timestamp := now E; content := None |}]> (user_sessions w))
  ∧ (forall c w chat s,
       user_sessions w !! chat = Some s ->
       exists s', user_sessions (step r E token (Callback c) w) !! chat = Some s'
                  ∧ results s' = results s).
Proof.
  split; [apply handle_search_stores|].
  intros c w chat s Hs. start_handler.
  wp_run; repeat (apply alter_keeps_results; [done|]); eauto.
Qed.

Lemma search_overwrites_callbacks_read_witness :
  user_sessions
    (step Dedented (sample_env sample_results "Tweet: ..." 200) "hf-token"
       (Search (sample_message "/search python")) sample_world) !! 42
  = Some {| results := sample_results; search_query := "python";
            timestamp := "2024-05-01T10:00:00"; content := None |}.
Proof.
  rewrite (proj1 (search_overwrites_callbacks_read
                    Dedented
                    (sample_env sample_results "Tweet: ..." 200) "hf-token")
             (sample_message "/search python") sample_world "python"
             {| sr_results := Some sample_results |}
             eq_refl eq_refl eq_refl ltac:(by vm_compute)).
  reflexivity.
Defined.

Lemma platform_not_other d :
  startswith "platform_" d = true ->
  String.eqb d "create_thumbnail" = false ∧ String.eqb d "regenerate" = false.
Proof.
  intros H. split.
  - destruct (String.eqb_spec d "create_thumbnail") as [->|]; [|done].
    by vm_compute in H.
  - destruct (String.eqb_spec d "regenerate") as [->|]; [|done].
    by vm_compute in H.
Qed.

(** With line 192 read as a branch of the dispatch, a platform callback
    calls the text generation with the initial prompt, stores the text and
    shows it with the regenerate and post buttons. *)
Lemma platform_callback_generates E token c w s t :
  user_sessions w !! chat_id (cq_message c) = Some s ->
  results s ≠ [] ->
  startswith "platform_" (data c) = true ->
  gemini_answer E (initial_prompt (build_context (results s))) = inr t ->
  t ≠ "" ->
  let w' := step Dedented E token (Callback c) w in
  (exists rest,
     new_calls w w'
     = GeminiGenerateContent (initial_prompt (build_context (results s)))
       :: EditMessageText (chat_id (cq_message c)) (message_id (cq_message c))
            ("*Generated Content:*" +:+ nl +:+ nl +:+ t) (Some "Markdown")
            [[ callback_button "🔄 Regenerate" "regenerate";
               callback_button "📤 Post" "post_content" ]]
       :: rest
     ∧ Forall (fun k => is_provider k = false) rest)
  ∧ user_sessions w' !! chat_id (cq_message c)
    = Some {| results := results s; search_query := search_query s;
              timestamp := now E; content := Some t |}.
Proof.
  intros Hs Hne Hplat Hgen Ht w'. subst w'.
  pose proof (platform_not_generate _ Hplat) as Hng.
  destruct (platform_split _ Hplat) as [p Hp].
  apply String.eqb_neq in Ht.
  start_handler. wp_run; try done.
  all: split;
    [ eexists; calls_norm; split; [reflexivity|repeat constructor]
    | cbn [user_sessions]; rewrite !lookup_alter_eq, Hs; reflexivity ].
Qed.

(** With lines 193-263 where their indentation puts them, no identifier
    that starts with [platform_] has a branch. *)
Lemma platform_callback_unknown E token c w s :
  user_sessions w !! chat_id (cq_message c) = Some s ->
  startswith "platform_" (data c) = true ->
  let w' := step Dropped E token (Callback c) w in
  head (new_calls w w') = Some (AnswerCallbackQuery (id c) UNKNOWN_COMMAND)
  ∧ Forall (fun k => is_provider k = false) (new_calls w w')
  ∧ user_sessions w' = user_sessions w.
Proof.
  intros Hs Hplat w'. subst w'.
  pose proof (platform_not_generate _ Hplat) as Hng.
  destruct (platform_not_other _ Hplat) as [Hthumb Hregen].
  start_handler. wp_run; finish_calls.
Qed.

(** C2, on the code: what a platform callback does hangs on line 192, which
    as written is no Python.  With the line dropped, so that lines 193-263
    stay in the block of line 175, the callback is answered with the
    unknown-command notice: no generation, no content stored.  Only with
    the line dedented does it call the text generation with the initial
    prompt, store the text and show it with the regenerate and post
    buttons. *)
Theorem platform_callback_hangs_on_line_192 E token c w s t :
  user_sessions w !! chat_id (cq_message c) = Some s ->
  results s ≠ [] ->
  startswith "platform_" (data c) = true ->
  gemini_answer E (initial_prompt (build_context (results s))) = inr t ->
  t ≠ "" ->
  (let w' := step Dropped E token (Callback c) w in
   head (new_calls w w') = Some (AnswerCallbackQuery (id c) UNKNOWN_COMMAND)
   ∧ Forall (fun k => is_provider k = false) (new_calls w w')
   ∧ user_sessions w' = user_sessions w)
  ∧ (let w' := step Dedented E token (Callback c) w in
     (exists rest,
        new_calls w w'
        = GeminiGenerateContent (initial_prompt (build_context (results s)))
          :: EditMessageText (chat_id (cq_message c)) (message_id (cq_message c))
               ("*Generated Content:*" +:+ nl +:+ nl +:+ t) (Some "Markdown")
               [[ callback_button "🔄 Regenerate" "regenerate";
                  callback_button "📤 Post" "post_content" ]]
          :: rest
        ∧ Forall (fun k => is_provider k = false) rest)
     ∧ user_sessions w' !! chat_id (cq_message c)
       = Some {| results := results s; search_query := search_query s;
                 timestamp := now E; content := Some t |}).
Proof.
  intros Hs Hne Hplat Hgen Ht. split.
  - by apply (platform_callback_unknown E token c w s).
  - by apply platform_callback_generates.
Qed.

Lemma platform_callback_hangs_on_line_192_witness :
  let c := sample_callback "platform_twitter" in
  let E := sample_env sample_results "Tweet: v2" 200 in
  new_calls sample_world (step Dropped E "hf-token" (Callback c) sample_world)
  = [AnswerCallbackQuery "cb1" UNKNOWN_COMMAND]
  ∧ content <$> user_sessions (step Dropped E "hf-token" (Callback c) sample_world) !! 42
    = Some (Some "Tweet: ...")
  ∧ content <$> user_sessions (step Dedented E "hf-token" (Callback c) sample_world) !! 42
    = Some (Some "Tweet: v2").
Proof.
  pose proof (platform_callback_hangs_on_line_192
                (sample_env sample_results "Tweet: v2" 200) "hf-token"
                (sample_callback "platform_twitter") sample_world sample_session
                "Tweet: v2" eq_refl ltac:(by vm_compute) eq_refl eq_refl
                ltac:(by vm_compute))
    as [(_ & _ & Hsame) [_ Hstored]].
  split; [by vm_compute|]. split.
  - by rewrite Hsame.
  - exact (f_equal (fmap content) Hstored).
Defined.

Example build_context_two :
  build_context
    [ {| r_title := Some "A"; r_url := Some "u"; r_content := Some "first" |};
      {| r_title := Some "B"; r_url := None; r_content := None |} ]
  = "Source 1:" +:+ nl +:+ "first" +:+ nl +:+ nl +:+ "Source 2:" +:+ nl.
Proof. reflexivity. Qed.

Lemma str_app_assoc (a b c : string) : (a +:+ b) +:+ c = a +:+ b +:+ c.
Proof.
  induction a as [|x a IH]; [done|].
  change (String x ((a +:+ b) +:+ c) = String x (a +:+ b +:+ c)). by f_equal.
Qed.

Lemma join_snoc sep (l : list string) y :
  l ≠ [] -> join sep (l ++ [y]) = join sep l +:+ sep +:+ y.
Proof.
  unfold join. induction l as [|x l IH]; intros Hne; [done|].
  destruct l as [|x' l]; [done|].
  change (x +:+ sep +:+ String.concat sep ((x' :: l) ++ [y])
          = (x +:+ sep +:+ String.concat sep (x' :: l)) +:+ sep +:+ y).
  rewrite IH by done. by rewrite !str_app_assoc.
Qed.

(** The context, read from its end: the last record comes last, under the
    label that carries its position. *)
Lemma build_context_snoc (rs : list result) (r : result) :
  rs ≠ [] ->
  build_context (rs ++ [r])
  = build_context rs +:+ nl +:+ nl
    +:+ "Source " +:+ str_of_nat (length rs + 1) +:+ ":" +:+ nl
    +:+ default "" (r_content r).
Proof.
  intros Hne. unfold build_context. rewrite imap_app. simpl.
  rewrite join_snoc by (by destruct rs).
  rewrite Nat.add_0_r. by rewrite !str_app_assoc.
Qed.

Ltac finish_prompts :=
  calls_norm; intros p Hin; set_unfold; destruct_or?; simplify_eq; auto.

(** C5: the context of a result list is the snippets of its records, each
    under its label "Source N", in order and two newlines apart.  Each of
    the two prompts (lines 209-218 and 337-346) is a fixed text around the
    first 5000 characters of that context: the segment has the length of
    the context or 5000, whichever is smaller, is a prefix of the context,
    and has exactly 5000 characters for a context of 10000.  Whatever line
    192 is read as, every prompt a callback sends to the text generation is
    one of these two, for the results of the session; the regenerate
    callback sends the second, and the callback that leads to lines 193-263
    sends the first. *)
Theorem context_truncated (rs : list result) :
  let context := build_context rs in
  let segment := str_take 5000 context in
  (build_context [] = ""
   ∧ (forall r, build_context [r] = "Source 1:" +:+ nl +:+ default "" (r_content r))
   ∧ (forall rs' r, rs' ≠ [] ->
        build_context (rs' ++ [r])
        = build_context rs' +:+ nl +:+ nl
          +:+ "Source " +:+ str_of_nat (length rs' + 1) +:+ ":" +:+ nl
          +:+ default "" (r_content r)))
  ∧ (String.length segment = (5000 `min` String.length context)%nat
     ∧ (exists rest, context = segment +:+ rest)
     ∧ (String.length context = 10000%nat -> String.length segment = 5000%nat))
  ∧ initial_prompt context
    = "Create engaging social media content based on these research findings:"
      +:+ nl +:+ indent
      +:+ nl +:+ indent +:+ segment
      +:+ nl +:+ indent
      +:+ nl +:+ indent +:+ "Format for these platforms:"
      +:+ nl +:+ indent +:+ "1. Twitter: 280-character post with 3 relevant hashtags"
      +:+ nl +:+ indent +:+ "2. Instagram: Caption under 2200 chars with 5 emojis"
      +:+ nl +:+ indent
      +:+ "3. LinkedIn: Professional post under 3000 chars with key insights"
      +:+ nl +:+ indent
      +:+ nl +:+ indent
      +:+ "Structure with clear platform headings. Ensure factual accuracy."
  ∧ regenerate_prompt context
    = "Regenerate the social media content with a different style:"
      +:+ nl +:+ indent
      +:+ nl +:+ indent +:+ "Original context:"
      +:+ nl +:+ indent +:+ segment
      +:+ nl +:+ indent
      +:+ nl +:+ indent +:+ "Requirements:"
      +:+ nl +:+ indent +:+ "- More casual/informal tone"
      +:+ nl +:+ indent +:+ "- Use different emojis/hashtags"
      +:+ nl +:+ indent +:+ "- Alternative structure"
      +:+ nl +:+ indent +:+ "- Keep platform-specific formatting"
  ∧ (forall r E token c w s,
       user_sessions w !! chat_id (cq_message c) = Some s ->
       results s = rs ->
       let l := new_calls w (step r E token (Callback c) w) in
       (forall p, GeminiGenerateContent p ∈ l ->
          p = initial_prompt context ∨ p = regenerate_prompt context)
       ∧ (rs ≠ [] -> data c = "regenerate" ->
          GeminiGenerateContent (regenerate_prompt context) ∈ l)
       ∧ (rs ≠ [] -> reaches_initial r (data c) = true ->
          (forall k, telegram_raises E k = None) ->
          GeminiGenerateContent (initial_prompt context) ∈ l)).
Proof.
  intros context segment. subst segment.
  split; [split; [done|split; [done|apply build_context_snoc]]|].
  split.
  { split; [apply str_take_length|]. split; [apply str_take_prefix|].
    intros Hlen. rewrite str_take_length, Hlen. by vm_compute. }
  split; [reflexivity|]. split; [reflexivity|].
  intros r E token c w s Hs Hrs l. subst l context rs. split; [|split].
  - start_handler. wp_run; finish_prompts.
  - intros Hne Hd. start_handler. rewrite !Hd. wp_run; try done; finish_calls.
  - intros Hne Hreach Hquiet. destruct r; simpl in Hreach.
    + pose proof (platform_not_generate _ Hreach) as Hng.
      destruct (platform_split _ Hreach) as [p Hp].
      start_handler. wp_run; try done; finish_calls.
    + apply String.eqb_eq in Hreach.
      assert (split "_" "generate_content" !! 1%nat = Some "content") as Hsplit by done.
      start_handler. rewrite !Hreach. wp_run; try done;
        try (match goal with
             | H : telegram_raises E _ = Some _ |- _ => by rewrite Hquiet in H
             end);
        finish_calls.
Qed.

Lemma context_truncated_witness :
  String.length (build_context [long_result]) = 10000%nat
  ∧ String.length (str_take 5000 (build_context [long_result])) = 5000%nat.
Proof.
  assert (String.length (build_context [long_result]) = 10000%nat) as Hlen
    by (by vm_compute).
  split; [exact Hlen|].
  exact (proj2 (proj2 (proj1 (proj2 (context_truncated [long_result])))) Hlen).
Defined.

(** One regenerate callback whose generation succeeds: line 364 assigns the
    new text to the [content] of the session. *)
Lemma regenerate_step r E token c w s t :
  user_sessions w !! chat_id (cq_message c) = Some s ->
  results s ≠ [] ->
  data c = "regenerate" ->
  gemini_answer E (regenerate_prompt (build_context (results s))) = inr t ->
  t ≠ "" ->
  user_sessions (step r E token (Callback c) w) !! chat_id (cq_message c)
  = Some {| results := results s; search_query := search_query s;
            timestamp := now E; content := Some t |}.
Proof.
  intros Hs Hne Hd Hgen Ht. apply String.eqb_neq in Ht.
  start_handler. rewrite !Hd.
  wp_run; try done.
  all: cbn [user_sessions]; rewrite !lookup_alter_eq, Hs; reflexivity.
Qed.

Lemma regenerate_run r token chat rs evs ts :
  rs ≠ [] ->
  Forall2 (regenerate_ok chat rs) evs ts ->
  forall w s t,
    user_sessions w !! chat = Some s ->
    results s = rs ->
    last ts = Some t ->
    exists s', user_sessions (run r token evs w) !! chat = Some s'
               ∧ content s' = Some t ∧ results s' = rs.
Proof.
  intros Hne Hall.
  induction Hall as [|[E ev] t1 evs ts Hok Hall IH]; intros w s t Hs Hrs Hlast; [done|].
  destruct Hok as (c & Hev & Hchat & Hd & Hgen & Ht). simpl in Hev, Hgen. subst ev chat rs.
  pose proof (regenerate_step r E token c w s t1 Hs Hne Hd Hgen Ht) as Hstep.
  unfold run. simpl. fold (run r token evs (step r E token (Callback c) w)).
  destruct ts as [|t2 ts].
  - apply Forall2_nil_inv_r in Hall as ->. simpl in Hlast.
    injection Hlast as <-. unfold run. simpl. eauto.
  - eapply IH; [exact Hstep|done|done].
Qed.

(** C7: after one or more regenerate callbacks whose generations succeed,
    the session holds one content value, the text of the last generation;
    the texts of the earlier generations are gone, and the results are still
    those of the search. *)
Theorem regenerate_keeps_latest r token chat s w evs ts t :
  user_sessions w !! chat = Some s ->
  results s ≠ [] ->
  Forall2 (regenerate_ok chat (results s)) evs ts ->
  last ts = Some t ->
  exists s', user_sessions (run r token evs w) !! chat = Some s'
             ∧ content s' = Some t ∧ results s' = results s.
Proof.
  intros Hs Hne Hall Hlast. by eapply regenerate_run.
Qed.

Lemma regenerate_keeps_latest_witness :
  exists s',
    user_sessions
      (run Dedented "hf-token"
         [ (sample_env [] "second draft" 200, Callback (sample_callback "regenerate"));
           (sample_env [] "third draft" 200, Callback (sample_callback "regenerate")) ]
         sample_world) !! 42 = Some s'
    ∧ content s' = Some "third draft" ∧ results s' = results sample_session.
Proof.
  apply (regenerate_keeps_latest Dedented "hf-token" 42 sample_session sample_world
           [ (sample_env [] "second draft" 200, Callback (sample_callback "regenerate"));
             (sample_env [] "third draft" 200, Callback (sample_callback "regenerate")) ]
           ["second draft"; "third draft"] "third draft").
  - reflexivity.
  - by vm_compute.
  - repeat constructor; eexists; (repeat split; try reflexivity); by vm_compute.
  - reflexivity.
Defined.

(** ** The image branch *)

Ltac finish_image :=
  calls_norm; repeat split; repeat constructor; try done;
  try (intros [= H]; by vm_compute in H).

(** C1, on the code: a prompt-choice callback ([default_prompt] or
    [custom_prompt], the identifiers of the two buttons of line 271) matches
    no branch of the dispatch; the handler answers with the unknown-command
    notice, calls no image generator, sends no photo and leaves the
    sessions as they were. *)
Theorem prompt_choice_unknown_command r E token c w s :
  user_sessions w !! chat_id (cq_message c) = Some s ->
  data c = "default_prompt" ∨ data c = "custom_prompt" ->
  let w' := step r E token (Callback c) w in
  head (new_calls w w') = Some (AnswerCallbackQuery (id c) UNKNOWN_COMMAND)
  ∧ Forall (fun k => is_image_call k = false ∧ is_photo k = false) (new_calls w w')
  ∧ user_sessions w' = user_sessions w.
Proof.
  intros Hs [Hd|Hd] w'; subst w'; start_handler; rewrite !Hd;
    wp_run; finish_image.
Qed.

Lemma prompt_choice_unknown_command_witness :
  head (new_calls sample_world
          (step Dedented (sample_env [] "Tweet: ..." 200) "hf-token"
             (Callback (sample_callback "default_prompt")) sample_world))
  = Some (AnswerCallbackQuery "cb1" UNKNOWN_COMMAND).
Proof.
  apply (prompt_choice_unknown_command Dedented (sample_env [] "Tweet: ..." 200) "hf-token"
           (sample_callback "default_prompt") sample_world sample_session);
    [reflexivity | by left].
Defined.

(** C9, on the code: [generate_image] gives the bytes of the answer on status
    200 and [None] on any other status and on a transport error, but no
    callback reaches it: whatever the callback, the handler makes no call to
    the image endpoint, sends no photo and never answers with the
    image-failure notice; a [create_thumbnail] callback only renders the two
    prompt-choice buttons and leaves the sessions as they were. *)
Theorem image_generator_unreached r E token :
  (forall prompt w,
     generate_image (R := unit) E token prompt w
     = (Normal match hf_answer E prompt with
               | inr r => if status_code r =? 200 then Some (resp_content r) else None
               | inl _ => None
               end,
        log (RequestsPost API_URL ("Bearer " +:+ token) prompt 120) w))
  ∧ (forall c w,
       let w' := step r E token (Callback c) w in
       Forall (fun k => is_image_call k = false ∧ is_photo k = false
                        ∧ k ≠ AnswerCallbackQuery (id c) IMAGE_FAILED)
         (new_calls w w')
       ∧ (forall s,
            user_sessions w !! chat_id (cq_message c) = Some s ->
            data c = "create_thumbnail" ->
            head (new_calls w w')
            = Some (EditMessageText (chat_id (cq_message c)) (message_id (cq_message c))
                      "Choose an option for image generation:" None image_choice_markup)
            ∧ user_sessions w' = user_sessions w)).
Proof.
  split.
  - intros prompt w.
    unfold generate_image, call_function, try_except, requests_post, record_call,
      mbind, M_bind, return_, raise, mret, M_ret, log.
    simpl. destruct (hf_answer E prompt) as [e|resp]; [done|].
    by destruct (status_code resp =? 200).
  - intros c w w'. subst w'. split.
    + start_handler. wp_run; finish_image.
    + intros s Hs Hd. start_handler. rewrite !Hd. wp_run; finish_image.
Qed.

Lemma image_generator_unreached_witness :
  (generate_image (R := unit) (sample_env [] "Tweet: ..." 503) "hf-token"
     "Social media thumbnail image for: Tweet: ..." sample_world).1
  = Normal None.
Proof.
  rewrite (proj1 (image_generator_unreached Dedented (sample_env [] "Tweet: ..." 503) "hf-token")).
  reflexivity.
Defined.

(** * Further properties of the handlers *)

Lemma escapes_wp r E token ev (P : option exn -> world -> Prop) w :
  wp (handler r E token ev)
     (fun o w' => P match o with Raised e => Some e | _ => None end w') w ->
  P (escapes r E token ev w) (step r E token ev w).
Proof.
  unfold wp, escapes, step, run_handler.
  by destruct (handler r E token ev w) as [[?|?|?] ?].
Qed.

(** Line 142 on a list of complete records, and on a list with a record
    that lacks a key. *)
Lemma wp_result_lines_complete {R} (l : list result)
    (Q : outcome R (list string) -> world -> Prop) w :
  forallb complete l = true ->
  Q (Normal (bullet <$> l)) w ->
  wp (mapM result_line l) Q w.
Proof.
  revert Q. induction l as [|res l IH]; intros Q Hall HQ; [exact HQ|].
  simpl in Hall. apply andb_prop in Hall as [Hres Hl].
  unfold complete in Hres. apply andb_prop in Hres as [Ht Hu].
  apply bool_decide_eq_true_1 in Ht as [t Ht], Hu as [u Hu].
  simpl. apply wp_bind. unfold result_line. rewrite Ht, Hu.
  simpl. apply wp_bind, IH; [exact Hl|].
  simpl. unfold bullet in *. simpl in HQ. by rewrite Ht, Hu in HQ.
Qed.

Lemma wp_result_lines_missing {R} (l : list result)
    (Q : outcome R (list string) -> world -> Prop) w :
  forallb complete l = false ->
  Q (Raised KeyError) w ->
  wp (mapM result_line l) Q w.
Proof.
  revert Q. induction l as [|res l IH]; intros Q Hall HQ; [done|].
  simpl. apply wp_bind. unfold result_line.
  destruct (r_title res) as [t|] eqn:Ht; [|exact HQ].
  destruct (r_url res) as [u|] eqn:Hu; [|exact HQ].
  simpl. apply wp_bind, IH; [|exact HQ].
  simpl in Hall. unfold complete in Hall. rewrite Ht, Hu in Hall.
  by rewrite !bool_decide_eq_true_2 in Hall by eauto.
Qed.

(** Steps that use what is known of the records and of a Telegram that does
    not fail. *)
Ltac wp_step_known :=
  lazymatch goal with
  | |- wp (mapM result_line ?l) _ _ =>
      first [ apply wp_result_lines_complete; [assumption|]
            | apply wp_result_lines_missing; [assumption|] ]
  | |- match telegram_raises ?E ?c with _ => _ end =>
      match goal with
      | H : forall k, telegram_raises E k = None |- _ => rewrite (H c)
      end
  end; world_norm.

Ltac wp_run_known := world_norm; repeat first [wp_step_known | wp_step].

Ltac finish_count :=
  calls_norm; unfold count_calls; simpl; repeat split; repeat constructor;
  try done; try lia.

(** ** Search: failures and rendering *)

(** When the search provider raises, the user gets the search-failed notice
    and no session is written; the search call is the only provider call. *)
Theorem search_provider_failure r E token m w q e :
  split_once " " (text m) !! 1%nat = Some q ->
  telegram_raises E (SendMessage (chat_id m) SEARCHING) = None ->
  tavily_answer E (strip q) = inl e ->
  let w' := step r E token (Search m) w in
  (exists rest,
     new_calls w w'
     = SendMessage (chat_id m) SEARCHING
       :: TavilySearch (strip q) "advanced"
       :: ReplyTo m SEARCH_FAILED
       :: rest
     ∧ Forall (fun k => is_provider k = false) rest)
  ∧ user_sessions w' = user_sessions w.
Proof.
  intros Hq Hsend Hans w'. subst w'. start_handler.
  wp_run; (split; [eexists; calls_norm; split; [reflexivity|repeat constructor]|done]).
Qed.

Lemma search_provider_failure_witness :
  user_sessions
    (step Dedented (scripted_env (inl (OtherError "timeout")) (inr "Tweet: ...")) "hf-token"
       (Search (sample_message "/search rust vs go")) sample_world)
  = user_sessions sample_world.
Proof.
  apply (search_provider_failure
           Dedented
           (scripted_env (inl (OtherError "timeout")) (inr "Tweet: ...")) "hf-token"
           (sample_message "/search rust vs go") sample_world "rust vs go"
           (OtherError "timeout"));
    reflexivity.
Defined.

(** When the status message of line 88 cannot be sent, no provider is
    called and no session is written; the user is sent the generic notice
    (the usage notice if the exception happens to be an [IndexError]). *)
Theorem search_status_message_failure r E token m w q e :
  split_once " " (text m) !! 1%nat = Some q ->
  telegram_raises E (SendMessage (chat_id m) SEARCHING) = Some e ->
  let w' := step r E token (Search m) w in
  new_calls w w'
  = [ SendMessage (chat_id m) SEARCHING;
      ReplyTo m match e with IndexError => USAGE | _ => UNEXPECTED end ]
  ∧ user_sessions w' = user_sessions w.
Proof.
  intros Hq Hsend w'. subst w'. start_handler.
  wp_run; by calls_norm.
Qed.

Lemma search_status_message_failure_witness :
  new_calls sample_world
    (step Dedented (failing_env is_send sample_results "Tweet: ...") "hf-token"
       (Search (sample_message "/search rust vs go")) sample_world)
  = [ SendMessage 42 SEARCHING; ReplyTo (sample_message "/search rust vs go") UNEXPECTED ].
Proof.
  apply (search_status_message_failure
           Dedented
           (failing_env is_send sample_results "Tweet: ...") "hf-token"
           (sample_message "/search rust vs go") sample_world "rust vs go"
           (OtherError "telegram"));
    reflexivity.
Defined.

(** A search whose kept records all have a title and a url, with a Telegram
    that does not fail, makes exactly three calls: the status message, the
    search, and the edit of that status message into the result list; the
    keyboard has one link row per record, in order, and a last row with the
    generate button. *)
Theorem search_renders_results r E token m w q resp :
  split_once " " (text m) !! 1%nat = Some q ->
  (forall k, telegram_raises E k = None) ->
  tavily_answer E (strip q) = inr resp ->
  capped_results resp ≠ [] ->
  forallb complete (capped_results resp) = true ->
  let rs := capped_results resp in
  new_calls w (step r E token (Search m) w)
  = [ SendMessage (chat_id m) SEARCHING;
      TavilySearch (strip q) "advanced";
      EditMessageText (chat_id m) (sent_message_id E)
        ("*Web Search Results:*" +:+ nl +:+ join (nl +:+ nl) (bullet <$> rs))
        (Some "Markdown") (search_markup rs) ]
  ∧ length (search_markup rs) = S (length rs)
  ∧ (forall i r, rs !! i = Some r ->
       search_markup rs !! i
       = Some [ url_button
                  ("🌐 " +:+ str_take 20 (default "No Title" (r_title r)) +:+ "...")
                  (default "" (r_url r)) ])
  ∧ search_markup rs !! length rs
    = Some [ callback_button "✅ Generate Content" "generate_content" ].
Proof.
  intros Hq Hquiet Hans Hne Hall rs. subst rs.
  pose proof (Hquiet (SendMessage (chat_id m) SEARCHING)) as Hsend.
  split; [|split; [|split]].
  - start_handler. wp_run_known; try done. by calls_norm.
  - unfold search_markup. rewrite length_app, length_fmap. simpl. lia.
  - intros i res Hr. unfold search_markup.
    rewrite lookup_app_l by (rewrite length_fmap; by eapply lookup_lt_Some).
    by rewrite list_lookup_fmap, Hr.
  - unfold search_markup. rewrite lookup_app_r by (by rewrite length_fmap).
    by rewrite length_fmap, Nat.sub_diag.
Qed.

Lemma search_renders_results_witness :
  length (search_markup sample_results) = 4%nat
  ∧ length
      (new_calls initial_world
         (step Dedented (sample_env sample_results "Tweet: ..." 200) "hf-token"
            (Search (sample_message "/search rust vs go")) initial_world)) = 3%nat.
Proof.
  pose proof (search_renders_results
                Dedented
                (sample_env sample_results "Tweet: ..." 200) "hf-token"
                (sample_message "/search rust vs go") initial_world
                "rust vs go" {| sr_results := Some sample_results |}
                eq_refl (fun _ => eq_refl) eq_refl ltac:(by vm_compute) eq_refl)
    as (Hcalls & Hlen & _).
  split; [exact Hlen|]. by rewrite Hcalls.
Defined.

(** When a kept record lacks its title or its url, line 142 raises after the
    session has been stored: no result list is shown, the user gets the
    generic notice, and the session is there all the same. *)
Theorem search_missing_key_stores_session r E token m w q resp :
  split_once " " (text m) !! 1%nat = Some q ->
  telegram_raises E (SendMessage (chat_id m) SEARCHING) = None ->
  tavily_answer E (strip q) = inr resp ->
  capped_results resp ≠ [] ->
  forallb complete (capped_results resp) = false ->
  let w' := step r E token (Search m) w in
  new_calls w w'
  = [ SendMessage (chat_id m) SEARCHING;
      TavilySearch (strip q) "advanced";
      ReplyTo m UNEXPECTED ]
  ∧ user_sessions w' !! chat_id m
    = Some {| results := capped_results resp; search_query := strip q;
              timestamp := now E; content := None |}.
Proof.
  intros Hq Hsend Hans Hne Hmiss w'. subst w'. start_handler.
  wp_run_known; try done.
  all: split; [by calls_norm|cbn [user_sessions]; by rewrite lookup_insert_eq].
Qed.

Lemma search_missing_key_stores_session_witness :
  let E := sample_env [sample_result "1"; untitled_result] "Tweet: ..." 200 in
  let m := sample_message "/search rust vs go" in
  new_calls initial_world (step Dedented E "hf-token" (Search m) initial_world)
  = [ SendMessage 42 SEARCHING; TavilySearch "rust vs go" "advanced"; ReplyTo m UNEXPECTED ]
  ∧ user_sessions (step Dedented E "hf-token" (Search m) initial_world) !! 42
    = Some {| results := [sample_result "1"; untitled_result];
              search_query := "rust vs go";
              timestamp := "2024-05-01T10:00:00"; content := None |}.
Proof.
  apply (search_missing_key_stores_session
           Dedented
           (sample_env [sample_result "1"; untitled_result] "Tweet: ..." 200) "hf-token"
           (sample_message "/search rust vs go") initial_world
           "rust vs go" {| sr_results := Some [sample_result "1"; untitled_result] |});
    [reflexivity | reflexivity | reflexivity | by vm_compute | reflexivity].
Defined.

(** A search changes the session of no other chat. *)
Theorem search_touches_own_chat r E token m w chat :
  chat ≠ chat_id m ->
  user_sessions (step r E token (Search m) w) !! chat = user_sessions w !! chat.
Proof.
  intros Hne. start_handler.
  wp_run; cbn [user_sessions]; rewrite ?lookup_insert_ne by done; done.
Qed.

Lemma search_touches_own_chat_witness :
  user_sessions
    (step Dedented (sample_env sample_results "Tweet: ..." 200) "hf-token"
       (Search {| chat_id := 43; message_id := 1; text := "/search go" |})
       sample_world) !! 42
  = Some sample_session.
Proof.
  rewrite (search_touches_own_chat
             Dedented
             (sample_env sample_results "Tweet: ..." 200) "hf-token"
             {| chat_id := 43; message_id := 1; text := "/search go" |}
             sample_world 42 ltac:(done)).
  reflexivity.
Defined.

(** A search event calls the search provider at most once, and never the
    text generation or the image endpoint. *)
Theorem search_one_provider_call r E token m w :
  let l := new_calls w (step r E token (Search m) w) in
  (count_calls is_search_call l <= 1)%nat
  ∧ count_calls is_generation_call l = 0%nat
  ∧ count_calls is_image_call l = 0%nat.
Proof.
  intros l. subst l. start_handler. wp_run; finish_count.
Qed.

(** ** The query of line 83 *)

Lemma break_at_app sep cmd rest :
  contains_char sep cmd = false ->
  break_at sep (cmd +:+ String sep rest) = Some (cmd, rest).
Proof.
  induction cmd as [|c cmd IH]; intros Hc.
  - change (break_at sep (String sep rest) = Some ("", rest)).
    simpl. by rewrite Ascii.eqb_refl.
  - change (break_at sep (String c (cmd +:+ String sep rest)) = Some (String c cmd, rest)).
    simpl in *. apply orb_false_elim in Hc as [Hc1 Hc2].
    by rewrite Hc1, (IH Hc2).
Qed.

Lemma lstrip_first s : not_blank (first_char (lstrip s)).
Proof.
  induction s as [|c s IH]; simpl; [done|].
  destruct (isspace c) eqn:Hc; [exact IH|exact Hc].
Qed.

Lemma rstrip_last s : not_blank (last_char (rstrip s)).
Proof.
  induction s as [|c s IH]; simpl; [done|].
  destruct (rstrip s) as [|c' r] eqn:Hr.
  - destruct (isspace c) eqn:Hc; simpl; done.
  - exact IH.
Qed.

Lemma rstrip_first s : not_blank (first_char s) -> not_blank (first_char (rstrip s)).
Proof.
  destruct s as [|c s]; simpl; [done|]. intros Hc.
  destruct (rstrip s); [by rewrite Hc|done].
Qed.

(** For a text made of a command without space, a space, and the rest, the
    query sent to the search provider is the rest without its leading and
    trailing blanks: it neither starts nor ends with a blank character. *)
Theorem search_query_is_stripped r E token m w cmd rest :
  text m = cmd +:+ " " +:+ rest ->
  contains_char " " cmd = false ->
  telegram_raises E (SendMessage (chat_id m) SEARCHING) = None ->
  let query := strip rest in
  TavilySearch query "advanced" ∈ new_calls w (step r E token (Search m) w)
  ∧ not_blank (first_char query)
  ∧ not_blank (last_char query).
Proof.
  intros Htext Hcmd Hsend query. subst query.
  assert (split_once " " (text m) !! 1%nat = Some rest) as Hq.
  { rewrite Htext. unfold split_once.
    change (cmd +:+ " " +:+ rest) with (cmd +:+ String " " rest).
    by rewrite break_at_app. }
  split; [|split].
  - start_handler. wp_run; finish_calls.
  - apply rstrip_first, lstrip_first.
  - apply rstrip_last.
Qed.

Lemma search_query_is_stripped_witness :
  TavilySearch "rust vs go" "advanced"
  ∈ new_calls initial_world
      (step Dedented (sample_env sample_results "Tweet: ..." 200) "hf-token"
         (Search (sample_message "/search   rust vs go  ")) initial_world).
Proof.
  apply (search_query_is_stripped
           Dedented
           (sample_env sample_results "Tweet: ..." 200) "hf-token"
           (sample_message "/search   rust vs go  ") initial_world
           "/search" "  rust vs go  ");
    reflexivity.
Defined.

(** ** Exceptions that leave a handler *)

(** Every exception raised while an event is handled is caught at the top of
    its handler: none leaves the handler as long as the last-resort notice
    itself can be sent. *)
Theorem no_exception_escapes r E token ev w :
  match ev with
  | Search m =>
      telegram_raises E (ReplyTo m USAGE) = None
      ∧ telegram_raises E (ReplyTo m UNEXPECTED) = None
  | Callback c =>
      telegram_raises E (AnswerCallbackQuery (id c) ERROR_OCCURRED) = None
  end ->
  escapes r E token ev w = None.
Proof.
  intros Hlast.
  apply (escapes_wp r E token ev (fun o _ => o = None)).
  destruct ev as [m|c]; [destruct Hlast as [Husage Hunexp]|];
    unfold handler, handle_search, handle_all_callbacks, platform_block;
    wp_run; done.
Qed.

Lemma no_exception_escapes_witness :
  escapes Dedented (scripted_env (inl (OtherError "timeout")) (inl (OtherError "quota"))) "hf-token"
    (Callback (sample_callback "regenerate")) sample_world = None.
Proof.
  apply (no_exception_escapes
           Dedented
           (scripted_env (inl (OtherError "timeout")) (inl (OtherError "quota"))) "hf-token"
           (Callback (sample_callback "regenerate")) sample_world).
  reflexivity.
Defined.

(** ** Callbacks: menus and unknown identifiers *)

(** Whatever line 192 is read as, the generate callback of a chat with a
    session first edits the message into the platform menu, whose buttons
    all carry an identifier of the platform family.  What follows hangs on
    line 192: with the line dedented nothing follows (no provider call, no
    session change); with the line dropped lines 193-263 run at once, so
    that the text is generated and stored before any platform is chosen. *)
Theorem generate_callback_shows_platforms r E token c w s t :
  user_sessions w !! chat_id (cq_message c) = Some s ->
  data c = "generate_content" ->
  let w' := step r E token (Callback c) w in
  let menu :=
    EditMessageText (chat_id (cq_message c)) (message_id (cq_message c))
      "Select the platform for which you want to generate content:"
      None platform_markup in
  head (new_calls w w') = Some menu
  ∧ Forall (fun b => exists d, btn_callback_data b = Some d
                               ∧ startswith "platform_" d = true)
      (concat platform_markup)
  ∧ (r = Dedented ->
     Forall (fun k => is_provider k = false) (new_calls w w')
     ∧ user_sessions w' = user_sessions w)
  ∧ (r = Dropped ->
     results s ≠ [] ->
     (forall k, telegram_raises E k = None) ->
     gemini_answer E (initial_prompt (build_context (results s))) = inr t ->
     t ≠ "" ->
     new_calls w w'
     = [ menu;
         GeminiGenerateContent (initial_prompt (build_context (results s)));
         EditMessageText (chat_id (cq_message c)) (message_id (cq_message c))
           ("*Generated Content:*" +:+ nl +:+ nl +:+ t) (Some "Markdown")
           content_markup ]
     ∧ user_sessions w' !! chat_id (cq_message c)
       = Some {| results := results s; search_query := search_query s;
                 timestamp := now E; content := Some t |}).
Proof.
  intros Hs Hd w' menu. subst w' menu.
  split; [|split; [repeat constructor; by eexists|split]].
  - start_handler. rewrite !Hd. wp_run; finish_calls.
  - intros ->. start_handler. rewrite !Hd. wp_run; finish_calls.
  - intros -> Hne Hquiet Hgen Ht. apply String.eqb_neq in Ht.
    assert (split "_" "generate_content" !! 1%nat = Some "content") as Hsplit by done.
    start_handler. rewrite !Hd. wp_run_known; try done.
    split; [by calls_norm|].
    cbn [user_sessions]. by rewrite !lookup_alter_eq, Hs.
Qed.

Lemma generate_callback_shows_platforms_witness :
  user_sessions
    (step Dedented (sample_env [] "Tweet: ..." 200) "hf-token"
       (Callback (sample_callback "generate_content")) sample_world)
  = user_sessions sample_world
  ∧ content <$> user_sessions
      (step Dropped (sample_env [] "Tweet: v2" 200) "hf-token"
         (Callback (sample_callback "generate_content")) sample_world) !! 42
    = Some (Some "Tweet: v2").
Proof.
  split.
  - apply (generate_callback_shows_platforms Dedented (sample_env [] "Tweet: ..." 200)
             "hf-token" (sample_callback "generate_content") sample_world
             sample_session "" eq_refl eq_refl).
    reflexivity.
  - pose proof (generate_callback_shows_platforms Dropped
                  (sample_env [] "Tweet: v2" 200) "hf-token"
                  (sample_callback "generate_content") sample_world
                  sample_session "Tweet: v2" eq_refl eq_refl)
      as (_ & _ & _ & Hdrop).
    destruct Hdrop as [_ Hstored];
      [reflexivity | by vm_compute | done | reflexivity | by vm_compute |].
    exact (f_equal (fmap content) Hstored).
Defined.

(** A callback whose identifier has no branch in the dispatch is answered
    with the unknown-command notice, calls no provider and changes no
    session. *)
Theorem undispatched_callback_rejected r E token c w s :
  user_sessions w !! chat_id (cq_message c) = Some s ->
  dispatched r (data c) = false ->
  let w' := step r E token (Callback c) w in
  head (new_calls w w') = Some (AnswerCallbackQuery (id c) UNKNOWN_COMMAND)
  ∧ Forall (fun k => is_provider k = false) (new_calls w w')
  ∧ user_sessions w' = user_sessions w.
Proof.
  intros Hs Hd w'. subst w'. unfold dispatched in Hd.
  apply orb_false_elim in Hd as [Hd Hregen].
  apply orb_false_elim in Hd as [Hd Hthumb].
  apply orb_false_elim in Hd as [Hgen Hplat].
  destruct r; start_handler; wp_run; finish_calls.
Qed.

Lemma undispatched_callback_rejected_witness :
  head (new_calls sample_world
          (step Dedented (sample_env [] "Tweet: ..." 200) "hf-token"
             (Callback (sample_callback "post_content")) sample_world))
  = Some (AnswerCallbackQuery "cb1" UNKNOWN_COMMAND).
Proof.
  apply (undispatched_callback_rejected Dedented (sample_env [] "Tweet: ..." 200) "hf-token"
           (sample_callback "post_content") sample_world sample_session);
    reflexivity.
Defined.

Lemma elem_of_concat {A} (x : A) (ls : list (list A)) :
  x ∈ concat ls -> exists l, x ∈ l ∧ l ∈ ls.
Proof.
  induction ls as [|l ls IH]; simpl; [by intros ?%elem_of_nil|].
  rewrite elem_of_app. intros [Hx|Hx].
  - exists l. split; [done|]. by left.
  - destruct (IH Hx) as (l' & Hl' & Hin). exists l'. split; [done|]. by right.
Qed.

Ltac finish_unknown :=
  calls_norm; simpl; split; intros H; try done;
  try (injection H as H; by vm_compute in H).

(** For a chat with a session, the handler answers a callback with the
    unknown-command notice exactly when its identifier has no branch in the
    dispatch. *)
Lemma unknown_iff_undispatched r E token c w s :
  user_sessions w !! chat_id (cq_message c) = Some s ->
  head (new_calls w (step r E token (Callback c) w))
  = Some (AnswerCallbackQuery (id c) UNKNOWN_COMMAND)
  <-> dispatched r (data c) = false.
Proof.
  intros Hs. unfold dispatched.
  destruct (String.eqb (data c) "generate_content") eqn:Hgen;
    destruct (startswith "platform_" (data c)) eqn:Hplat;
    destruct (String.eqb (data c) "create_thumbnail") eqn:Hthumb;
    destruct (String.eqb (data c) "regenerate") eqn:Hregen;
    destruct r; simpl;
    try (destruct (platform_split _ Hplat) as [p Hp]);
    start_handler; wp_run; finish_unknown.
Qed.

(** Which of the buttons the handlers render lead somewhere.  A callback
    that carries the identifier of a button of the result list or of the
    revised content is never answered with the unknown-command notice; one
    that carries the identifier of a button of the first content view or of
    the image-choice menu is, unless it is [regenerate]: the post button of
    the first content view and the two prompt-choice buttons are dead.  The
    platform buttons are dead exactly when line 192 is dropped. *)
Theorem rendered_buttons_dispatch r E token c w s :
  user_sessions w !! chat_id (cq_message c) = Some s ->
  let unknown :=
    head (new_calls w (step r E token (Callback c) w))
    = Some (AnswerCallbackQuery (id c) UNKNOWN_COMMAND) in
  (unknown <-> dispatched r (data c) = false)
  ∧ (forall rs b,
       b ∈ (concat (search_markup rs) ++ concat revised_markup)%list ->
       btn_callback_data b = Some (data c) -> ¬ unknown)
  ∧ (forall b,
       b ∈ concat platform_markup ->
       btn_callback_data b = Some (data c) -> (unknown <-> r = Dropped))
  ∧ (forall b,
       b ∈ (concat content_markup ++ concat image_choice_markup)%list ->
       btn_callback_data b = Some (data c) ->
       (unknown <-> data c ≠ "regenerate")).
Proof.
  intros Hs unknown. subst unknown.
  pose proof (unknown_iff_undispatched r E token c w s Hs) as Htie.
  split; [exact Htie|].
  split; [|split].
  - intros rs b Hin Hb. rewrite Htie.
    rewrite elem_of_app in Hin. destruct Hin as [Hin|Hin].
    + unfold search_markup in Hin. rewrite concat_app, elem_of_app in Hin.
      destruct Hin as [Hin|Hin].
      * apply elem_of_concat in Hin as (row & Hin & Hrow).
        apply list_elem_of_fmap in Hrow as (res & -> & _).
        apply list_elem_of_singleton in Hin as ->. done.
      * simpl in Hin. apply list_elem_of_singleton in Hin as ->.
        injection Hb as <-. by destruct r.
    + simpl in Hin. set_unfold. destruct_or!; try done; subst b;
        injection Hb as <-; by destruct r.
  - intros b Hin Hb. rewrite Htie. simpl in Hin. set_unfold.
    destruct_or!; try done; subst b; injection Hb as <-; by destruct r.
  - intros b Hin Hb. rewrite Htie. simpl in Hin. set_unfold.
    destruct_or!; try done; subst b; injection Hb as <-; by destruct r.
Qed.

Lemma rendered_buttons_dispatch_witness :
  head (new_calls sample_world
          (step Dropped (sample_env [] "Tweet: ..." 200) "hf-token"
             (Callback (sample_callback "post_content")) sample_world))
  = Some (AnswerCallbackQuery "cb1" UNKNOWN_COMMAND).
Proof.
  apply (proj2 (proj2 (proj2 (rendered_buttons_dispatch Dropped
                                (sample_env [] "Tweet: ..." 200) "hf-token"
                                (sample_callback "post_content") sample_world
                                sample_session eq_refl)))
           (callback_button "📤 Post" "post_content")).
  - simpl. set_unfold. tauto.
  - reflexivity.
  - done.
Defined.

(** ** Callbacks: generation *)

(** When the text generation of a regenerate callback raises or answers
    with an empty text, nothing is shown and no session changes; the user is
    answered twice, with the regeneration-failed notice and, because the
    exception is raised again, with the generic notice. *)
Theorem generation_failure_keeps_sessions r E token c w s :
  user_sessions w !! chat_id (cq_message c) = Some s ->
  results s ≠ [] ->
  data c = "regenerate" ->
  (exists e, gemini_answer E (regenerate_prompt (build_context (results s))) = inl e)
  ∨ gemini_answer E (regenerate_prompt (build_context (results s))) = inr "" ->
  let w' := step r E token (Callback c) w in
  (exists rest,
     new_calls w w'
     = GeminiGenerateContent (regenerate_prompt (build_context (results s)))
       :: AnswerCallbackQuery (id c) "⚠️ Regeneration failed"
       :: rest
     ∧ Forall (fun k => is_provider k = false ∧ is_edit k = false) rest)
  ∧ AnswerCallbackQuery (id c) ERROR_OCCURRED ∈ new_calls w w'
  ∧ user_sessions w' = user_sessions w.
Proof.
  intros Hs Hne Hd Hfail w'. subst w'.
  destruct Hfail as [[e He]|Hempty]; start_handler; rewrite !Hd; wp_run; try done.
  all: split; [eexists; calls_norm; split; [reflexivity|repeat constructor]|].
  all: split; [calls_norm; repeat constructor|done].
Qed.

Lemma generation_failure_keeps_sessions_witness :
  user_sessions
    (step Dropped (scripted_env (inl (OtherError "unused")) (inr "")) "hf-token"
       (Callback (sample_callback "regenerate")) sample_world)
  = user_sessions sample_world.
Proof.
  apply (generation_failure_keeps_sessions Dropped
           (scripted_env (inl (OtherError "unused")) (inr "")) "hf-token"
           (sample_callback "regenerate") sample_world sample_session).
  - reflexivity.
  - by vm_compute.
  - reflexivity.
  - by right.
Defined.

(** When the regenerated text cannot be shown (the edit of the message
    raises), the text is the content of the session all the same, and the
    user gets the too-long notice. *)
Theorem render_failure_keeps_content r E token c w s t e :
  user_sessions w !! chat_id (cq_message c) = Some s ->
  results s ≠ [] ->
  data c = "regenerate" ->
  gemini_answer E (regenerate_prompt (build_context (results s))) = inr t ->
  t ≠ "" ->
  telegram_raises E
    (EditMessageText (chat_id (cq_message c)) (message_id (cq_message c))
       ("*Revised Content:*" +:+ nl +:+ nl +:+ t) (Some "Markdown") revised_markup)
  = Some e ->
  let w' := step r E token (Callback c) w in
  new_calls w w' !! 2%nat
  = Some (AnswerCallbackQuery (id c) "⚠️ Regenerated content too long")
  ∧ user_sessions w' !! chat_id (cq_message c)
    = Some {| results := results s; search_query := search_query s;
              timestamp := now E; content := Some t |}.
Proof.
  intros Hs Hne Hd Hgen Ht Hedit w'. subst w'.
  apply String.eqb_neq in Ht.
  start_handler. rewrite !Hd. wp_run; try done.
  all: split; [by calls_norm|].
  all: cbn [user_sessions]; rewrite !lookup_alter_eq, Hs; reflexivity.
Qed.

Lemma render_failure_keeps_content_witness :
  user_sessions
    (step Dropped (failing_env is_edit [] "A very long text") "hf-token"
       (Callback (sample_callback "regenerate")) sample_world) !! 42
  = Some {| results := sample_results; search_query := "rust vs go";
            timestamp := "2024-05-01T10:00:00"; content := Some "A very long text" |}.
Proof.
  apply (render_failure_keeps_content Dropped
           (failing_env is_edit [] "A very long text") "hf-token"
           (sample_callback "regenerate") sample_world sample_session
           "A very long text" (OtherError "telegram"));
    [reflexivity | by vm_compute | reflexivity | reflexivity | by vm_compute
    | reflexivity].
Defined.

(** A regenerate callback whose generation answers with a text makes one
    generation call with the regenerate prompt, stores the text, and shows
    it with a regenerate button and a post button that leads to the
    thumbnail menu. *)
Theorem regenerate_callback_generates r E token c w s t :
  user_sessions w !! chat_id (cq_message c) = Some s ->
  results s ≠ [] ->
  data c = "regenerate" ->
  gemini_answer E (regenerate_prompt (build_context (results s))) = inr t ->
  t ≠ "" ->
  let w' := step r E token (Callback c) w in
  (exists rest,
     new_calls w w'
     = GeminiGenerateContent (regenerate_prompt (build_context (results s)))
       :: EditMessageText (chat_id (cq_message c)) (message_id (cq_message c))
            ("*Revised Content:*" +:+ nl +:+ nl +:+ t) (Some "Markdown")
            [[ callback_button "🔄 Regenerate" "regenerate";
               callback_button "📤 Post" "create_thumbnail" ]]
       :: rest
     ∧ Forall (fun k => is_provider k = false) rest)
  ∧ user_sessions w' !! chat_id (cq_message c)
    = Some {| results := results s; search_query := search_query s;
              timestamp := now E; content := Some t |}.
Proof.
  intros Hs Hne Hd Hgen Ht w'. subst w'.
  split; [|by apply regenerate_step].
  apply String.eqb_neq in Ht.
  start_handler. rewrite !Hd. wp_run; try done.
  all: eexists; calls_norm; split; [reflexivity|repeat constructor].
Qed.

Lemma regenerate_callback_generates_witness :
  user_sessions
    (step Dedented (sample_env [] "Second draft" 200) "hf-token"
       (Callback (sample_callback "regenerate")) sample_world) !! 42
  = Some {| results := sample_results; search_query := "rust vs go";
            timestamp := "2024-05-01T10:00:00"; content := Some "Second draft" |}.
Proof.
  apply (regenerate_callback_generates
           Dedented
           (sample_env [] "Second draft" 200) "hf-token"
           (sample_callback "regenerate") sample_world sample_session "Second draft");
    [reflexivity | by vm_compute | reflexivity | reflexivity | by vm_compute].
Defined.

(** The platform chosen is not used: two platform callbacks that differ in
    their identifier only are handled in the same way, with the same prompt
    and the same outcome. *)
Theorem platform_choice_is_ignored r E token c1 c2 w :
  id c1 = id c2 ->
  cq_message c1 = cq_message c2 ->
  startswith "platform_" (data c1) = true ->
  startswith "platform_" (data c2) = true ->
  step r E token (Callback c1) w = step r E token (Callback c2) w.
Proof.
  destruct c1 as [i1 d1 m1], c2 as [i2 d2 m2]. simpl.
  intros -> -> Hp1 Hp2.
  pose proof (platform_not_generate _ Hp1) as Hng1.
  pose proof (platform_not_generate _ Hp2) as Hng2.
  destruct (platform_split _ Hp1) as [p1 Hs1].
  destruct (platform_split _ Hp2) as [p2 Hs2].
  destruct (platform_not_other _ Hp1) as [Ht1 Hr1].
  destruct (platform_not_other _ Hp2) as [Ht2 Hr2].
  unfold step, handler, handle_all_callbacks, platform_block, getitem.
  cbn [id data cq_message].
  destruct r.
  - rewrite Hng1, Hng2, Hp1, Hp2, Hs1, Hs2. reflexivity.
  - rewrite Hng1, Hng2, Ht1, Ht2, Hr1, Hr2. reflexivity.
Qed.

Lemma platform_choice_is_ignored_witness :
  step Dedented (sample_env [] "Tweet: ..." 200) "hf-token"
    (Callback (sample_callback "platform_twitter")) sample_world
  = step Dedented (sample_env [] "Tweet: ..." 200) "hf-token"
      (Callback (sample_callback "platform_linkedin")) sample_world.
Proof.
  apply (platform_choice_is_ignored Dedented (sample_env [] "Tweet: ..." 200) "hf-token"
           (sample_callback "platform_twitter") (sample_callback "platform_linkedin")
           sample_world);
    reflexivity.
Defined.

(** ** Callbacks: what they leave alone *)

Lemma alter_keeps_query (f : session -> session) k (m : gmap Z session) chat s :
  (forall x, search_query (f x) = search_query x) ->
  (exists s', m !! chat = Some s' ∧ search_query s' = search_query s) ->
  exists s', alter f k m !! chat = Some s' ∧ search_query s' = search_query s.
Proof.
  intros Hf (s' & Hs & Hq). rewrite lookup_alter. case_decide as Hk.
  - subst k. rewrite Hs. simpl. eexists. split; [done|]. by rewrite Hf.
  - by exists s'.
Qed.

(** A callback creates no session and removes none, changes the session of
    no other chat, and keeps the query of the session of its own chat. *)
Theorem callback_keeps_store_shape r E token c w :
  let w' := step r E token (Callback c) w in
  dom (user_sessions w') = dom (user_sessions w)
  ∧ (forall chat, chat ≠ chat_id (cq_message c) ->
       user_sessions w' !! chat = user_sessions w !! chat)
  ∧ (forall s, user_sessions w !! chat_id (cq_message c) = Some s ->
       exists s', user_sessions w' !! chat_id (cq_message c) = Some s'
                  ∧ search_query s' = search_query s).
Proof.
  intros w'. subst w'. split; [|split].
  - start_handler. wp_run; cbn [user_sessions]; by rewrite ?dom_alter_L.
  - intros chat Hne. start_handler.
    wp_run; cbn [user_sessions]; by rewrite ?lookup_alter_ne.
  - intros s Hs. start_handler.
    wp_run; repeat (apply alter_keeps_query; [done|]); eauto.
Qed.

(** A callback makes at most one provider call, and that call is a text
    generation: it never searches. *)
Theorem callback_one_generation_call r E token c w :
  let l := new_calls w (step r E token (Callback c) w) in
  (count_calls is_provider l <= 1)%nat
  ∧ count_calls is_search_call l = 0%nat
  ∧ count_calls is_provider l = count_calls is_generation_call l.
Proof.
  intros l. subst l. start_handler. wp_run; finish_count.
Qed.

(** ** The sessions a run can reach *)

Lemma session_ok_alter (f : session -> session) k (m : gmap Z session) :
  (forall x, session_ok x -> session_ok (f x)) ->
  map_Forall (fun _ s => session_ok s) m ->
  map_Forall (fun _ s => session_ok s) (alter f k m).
Proof.
  intros Hf Hm i x [(-> & y & Hy & ->)|[_ Hx]]%lookup_alter_Some.
  - apply Hf. by apply (Hm _ _ Hy).
  - by apply (Hm _ _ Hx).
Qed.

Lemma step_keeps_sessions_ok r E token ev w :
  map_Forall (fun _ s => session_ok s) (user_sessions w) ->
  map_Forall (fun _ s => session_ok s) (user_sessions (step r E token ev w)).
Proof.
  intros Hw. destruct ev as [m|c]; start_handler; wp_run; try done.
  all: try (apply map_Forall_insert_2; [by split|done]).
  all: apply session_ok_alter; [by intros x [? ?]|].
  all: apply session_ok_alter; [|done].
  all: intros x [Hr _]; split; [done|]; simpl; intros [= ->]; done.
Qed.

(** From the empty store on, whatever the events and whatever the outside
    world does, every stored session has at least one result, and its
    content, when it has one, is a non-empty text. *)
Theorem reachable_sessions_ok r token evs chat s :
  user_sessions (run r token evs initial_world) !! chat = Some s ->
  session_ok s.
Proof.
  assert (forall w, map_Forall (fun _ s => session_ok s) (user_sessions w) ->
                    map_Forall (fun _ s => session_ok s) (user_sessions (run r token evs w)))
    as Hrun.
  { induction evs as [|[E ev] evs IH]; intros w Hw; [done|].
    apply IH. by apply step_keeps_sessions_ok. }
  apply (Hrun initial_world). apply map_Forall_empty.
Qed.

Lemma reachable_sessions_ok_witness :
  session_ok
    {| results := sample_results; search_query := "rust vs go";
       timestamp := "2024-05-01T10:00:00"; content := Some "Tweet: ..." |}.
Proof.
  apply (reachable_sessions_ok Dedented "hf-token"
           [ (sample_env sample_results "Tweet: ..." 200,
              Search (sample_message "/search rust vs go"));
             (sample_env sample_results "Tweet: ..." 200,
              Callback (sample_callback "regenerate")) ]
           42).
  by vm_compute.
Defined.

(** ** Start-up *)

Lemma truthy_str_spec v : truthy_str v = true <-> exists t, v = Some t ∧ t ≠ "".
Proof.
  destruct v as [[|a t]|]; simpl; split; try done.
  - by intros (t & [= <-] & ?).
  - intros _. by eexists.
  - by intros (t & ? & _).
Qed.

Lemma load_config_inr getenv cfg :
  load_config getenv = inr cfg <->
  Forall (fun name => truthy_str (getenv name) = true) VARIABLES
  ∧ cfg = {| TELEGRAM_TOKEN := getenv "TELEGRAM_TOKEN";
             TAVILY_API_KEY := getenv "TAVILY_API_KEY";
             GEMINI_API_KEY := getenv "GEMINI_API_KEY";
             HF_API_TOKEN := getenv "HF_API_TOKEN" |}.
Proof.
  unfold load_config, VARIABLES. cbn [forallb TELEGRAM_TOKEN TAVILY_API_KEY GEMINI_API_KEY HF_API_TOKEN].
  rewrite !Forall_cons, Forall_nil.
  destruct (truthy_str (getenv "TELEGRAM_TOKEN")),
           (truthy_str (getenv "TAVILY_API_KEY")),
           (truthy_str (getenv "GEMINI_API_KEY")),
           (truthy_str (getenv "HF_API_TOKEN")); simpl;
    (split; [intros Heq; simplify_eq; by repeat split
            |intros [(? & ? & ? & ? & _) ->]; done]).
Qed.

(** The module starts polling only when each of the four variables is set
    to a non-empty text and none of the four clients fails to build; the
    clients are then built in order from those values.  With a variable
    unset or empty it builds no client at all, and whenever it does not
    reach polling it exits with code 1. *)
Theorem startup_needs_every_variable getenv init_raises :
  let clients := (startup getenv init_raises).1 in
  let outcome := (startup getenv init_raises).2 in
  (forall cfg, outcome = Polling cfg ->
     Forall (fun name => exists t, getenv name = Some t ∧ t ≠ "") VARIABLES
     ∧ clients = [ TeleBot (getenv "TELEGRAM_TOKEN");
                   TavilyClient (getenv "TAVILY_API_KEY");
                   GenaiConfigure (getenv "GEMINI_API_KEY");
                   GenerativeModel "gemini-pro" ]
     ∧ Forall (fun c => init_raises c = None) clients
     ∧ HF_API_TOKEN cfg = getenv "HF_API_TOKEN")
  ∧ (forall name, name ∈ VARIABLES -> truthy_str (getenv name) = false ->
       clients = [] ∧ outcome = Exit 1)
  ∧ (forall code, outcome = Exit code -> code = 1).
Proof.
  intros clients outcome. subst clients outcome. unfold startup.
  destruct (load_config getenv) as [e|cfg] eqn:Hload.
  - simpl. split; [done|]. split; [done|]. by intros code [= <-].
  - apply load_config_inr in Hload as [Hall ->]. cbn [TELEGRAM_TOKEN TAVILY_API_KEY GEMINI_API_KEY HF_API_TOKEN].
    assert (forall name, name ∈ VARIABLES -> truthy_str (getenv name) = false -> False)
      as Hno.
    { intros name Hin Hf. rewrite Forall_forall in Hall.
      specialize (Hall name Hin). congruence. }
    assert (Forall (fun name => exists t, getenv name = Some t ∧ t ≠ "") VARIABLES)
      as Hset.
    { eapply Forall_impl; [exact Hall|]. intros name. by rewrite truthy_str_spec. }
    simpl.
    destruct (init_raises (TeleBot _)) eqn:H1; simpl;
      [split; [done|split; [intros; exfalso; eauto|by intros code [= <-]]]|].
    destruct (init_raises (TavilyClient _)) eqn:H2; simpl;
      [split; [done|split; [intros; exfalso; eauto|by intros code [= <-]]]|].
    destruct (init_raises (GenaiConfigure _)) eqn:H3; simpl;
      [split; [done|split; [intros; exfalso; eauto|by intros code [= <-]]]|].
    destruct (init_raises (GenerativeModel _)) eqn:H4; simpl;
      [split; [done|split; [intros; exfalso; eauto|by intros code [= <-]]]|].
    split; [|split; [intros; exfalso; eauto|done]].
    intros cfg [= <-]. repeat split; try done. by repeat constructor.
Qed.

Lemma startup_needs_every_variable_witness :
  startup (sample_getenv (Some "")) (fun _ => None) = ([], Exit 1)
  ∧ (startup (sample_getenv (Some "hf-token")) (fun _ => None)).1
    = [ TeleBot (Some "value-of-TELEGRAM_TOKEN");
        TavilyClient (Some "value-of-TAVILY_API_KEY");
        GenaiConfigure (Some "value-of-GEMINI_API_KEY");
        GenerativeModel "gemini-pro" ].
Proof.
  split.
  - destruct (proj1 (proj2 (startup_needs_every_variable
                               (sample_getenv (Some "")) (fun _ => None)))
                "HF_API_TOKEN" ltac:(repeat constructor) eq_refl) as [H1 H2].
    by apply injective_projections.
  - apply (proj1 (startup_needs_every_variable
                    (sample_getenv (Some "hf-token")) (fun _ => None))
             {| TELEGRAM_TOKEN := Some "value-of-TELEGRAM_TOKEN";
                TAVILY_API_KEY := Some "value-of-TAVILY_API_KEY";
                GEMINI_API_KEY := Some "value-of-GEMINI_API_KEY";
                HF_API_TOKEN := Some "hf-token" |}).
    reflexivity.
Defined.
